(** * A caching HTTP proxy and its synthetic origin server

    Shallow embedding of [proxyServer.py] (class [ProxyServer]) and
    [webServer.py] (class [WebServer]), and the properties of the request
    pipeline, of the cache index and of its backing directory.

    Conventions of the embedding.
    - A Python [str] is a [string]; each [ascii] stands for one code point
      below 256, so the whitespace and line-boundary tables below are the
      ones of Python restricted to that range.
    - Python [bytes] are [list byte].
    - The dictionary [self.cache] keeps its keys in insertion order; it is an
      association list with unique keys, oldest binding first.
    - The directory [proxy_cache] is a finite map from file names to file
      contents.
    - One call of [handle_client] is a function of the state, of the text
      read from the client, and of what the origin server does when it is
      contacted; it returns the new state, what was written to the client
      socket, and what was sent upstream.  The text is what
      [recv(1024).decode('utf-8')] returned: bytes that do not decode
      raise before line 54 and are not part of the model.
    - Handlers run one after the other.  The failures modelled are
      [ValueError] at the three-way unpacking, [ConnectionRefusedError] at
      [connect] and, in [handle_client_fs], [OSError] when the file system
      refuses the cache file; [handle_client] is the handler on a file
      system that refuses nothing.  Sockets otherwise work. *)

From Stdlib Require Import ZArith Ascii DecimalString.
From stdpp Require Import gmap strings list fin_maps.

Local Open Scope Z_scope.

Abbreviation bytes := (list Byte.byte).

(** ** Python string primitives *)

Module Py.

Definition code (c : ascii) : N := Ascii.N_of_ascii c.

Definition char_in (c : ascii) (codes : list N) : bool :=
  existsb (N.eqb (code c)) codes.

(** [str.isspace] on one code point below 256. *)
Definition is_space (c : ascii) : bool :=
  char_in c [9; 10; 11; 12; 13; 28; 29; 30; 31; 32; 133; 160]%N.

(** Line boundaries of [str.splitlines] below 256. *)
Definition is_linebreak (c : ascii) : bool :=
  char_in c [10; 11; 12; 13; 28; 29; 30; 133]%N.

(** The whitespace [int] skips around a literal: the ASCII blanks of C's
    [isspace], and the two other spaces below 256, which [int] first turns
    into blanks.  The separators 28 to 31 are not skipped. *)
Definition is_int_space (c : ascii) : bool :=
  char_in c [9; 10; 11; 12; 13; 32; 133; 160]%N.

Definition is_digit (c : ascii) : bool :=
  (48 <=? code c)%N && (code c <=? 57)%N.

Definition digit_value (c : ascii) : Z := Z.of_N (code c) - 48.

Definition len (s : string) : nat := String.length s.

Definition is_empty (s : string) : bool :=
  match s with EmptyString => true | String _ _ => false end.

(** [s.startswith(p)] *)
Fixpoint startswith (s p : string) {struct p} : bool :=
  match p, s with
  | EmptyString, _ => true
  | String _ _, EmptyString => false
  | String a p', String b s' => Ascii.eqb a b && startswith s' p'
  end.

(** [s[n:]] for [n >= 0] *)
Fixpoint drop (n : nat) (s : string) : string :=
  match n, s with
  | O, _ => s
  | S _, EmptyString => EmptyString
  | S n', String _ s' => drop n' s'
  end.

(** [s[k:]] for any integer [k]: a negative [k] counts from the end and
    is clamped at the start of the string. *)
Definition slice_from (s : string) (k : Z) : string :=
  if k <? 0 then drop (Z.to_nat (Z.of_nat (len s) + k)) s
  else drop (Z.to_nat k) s.

(** [s.find(c)] for a one-character needle: the first index of [c], or
    [-1]. *)
Fixpoint find_from (i : Z) (c : ascii) (s : string) : Z :=
  match s with
  | EmptyString => -1
  | String a s' => if Ascii.eqb a c then i else find_from (i + 1) c s'
  end.

Definition find (s : string) (c : ascii) : Z := find_from 0 c s.

(** [s.replace(a, b)] for one-character [a] and [b]. *)
Fixpoint replace (a b : ascii) (s : string) : string :=
  match s with
  | EmptyString => EmptyString
  | String c s' => String (if Ascii.eqb c a then b else c) (replace a b s')
  end.

(** [s.lstrip(c)] for a one-character set. *)
Fixpoint lstrip_char (c : ascii) (s : string) : string :=
  match s with
  | EmptyString => EmptyString
  | String a s' => if Ascii.eqb a c then lstrip_char c s' else s
  end.

(** [c * n] *)
Fixpoint repeat_char (c : ascii) (n : nat) : string :=
  match n with
  | O => EmptyString
  | S n' => String c (repeat_char c n')
  end.

(** [s.splitlines()]: [cur] is the line being read, reversed.  A final
    line without terminator is kept only when it is not empty, and
    carriage return followed by line feed is one boundary. *)
Fixpoint splitlines_go (cur : string) (s : string) : list string :=
  match s with
  | EmptyString => if is_empty cur then [] else [String.rev cur]
  | String c rest =>
      if is_linebreak c then
        String.rev cur ::
          match rest with
          | String d rest' =>
              if Ascii.eqb c "013" && Ascii.eqb d "010"
              then splitlines_go EmptyString rest'
              else splitlines_go EmptyString rest
          | EmptyString => []
          end
      else splitlines_go (String c cur) rest
  end.

Definition splitlines (s : string) : list string :=
  splitlines_go EmptyString s.

(** [s.split()]: maximal runs of non-whitespace. *)
Fixpoint split_go (cur : string) (s : string) : list string :=
  match s with
  | EmptyString => if is_empty cur then [] else [String.rev cur]
  | String c rest =>
      if is_space c then
        if is_empty cur then split_go EmptyString rest
        else String.rev cur :: split_go EmptyString rest
      else split_go (String c cur) rest
  end.

Definition split (s : string) : list string := split_go EmptyString s.

(** The blanks [int] skips before and after a literal. *)
Fixpoint lstrip (s : string) : string :=
  match s with
  | EmptyString => EmptyString
  | String c s' => if is_int_space c then lstrip s' else s
  end.

Fixpoint rstrip (s : string) : string :=
  match s with
  | EmptyString => EmptyString
  | String c s' =>
      let t := rstrip s' in
      if is_empty t && is_int_space c then EmptyString else String c t
  end.

Definition strip (s : string) : string := rstrip (lstrip s).

(** The digits of a base-10 literal: one underscore may separate two
    digits.  [after_digit] tells whether the previous character was a
    digit. *)
Fixpoint digits (acc : Z) (after_digit : bool) (s : string) : option Z :=
  match s with
  | EmptyString => if after_digit then Some acc else None
  | String c s' =>
      if is_digit c then digits (10 * acc + digit_value c) true s'
      else if Ascii.eqb c "_" then
        if after_digit then digits acc false s' else None
      else None
  end.

(** [int(s)]: [None] stands for [ValueError]. *)
Definition int (s : string) : option Z :=
  match strip s with
  | EmptyString => None
  | String c t =>
      if Ascii.eqb c "+" then digits 0 false t
      else if Ascii.eqb c "-" then Z.opp <$> digits 0 false t
      else digits 0 false (String c t)
  end.

(** [str(n)] for a natural number, as an f-string prints it. *)
Definition str_nat (n : nat) : string :=
  NilEmpty.string_of_uint (Nat.to_uint n).

Definition str_N (n : N) : string :=
  NilEmpty.string_of_uint (N.to_uint n).

(** [s.encode('utf-8')] for text made of code points below 128. *)
Definition encode (s : string) : bytes := String.list_byte_of_string s.

End Py.

(** ** The dictionary [self.cache]

    A Python [dict] iterates over its keys in insertion order; assigning to
    a key that is present replaces the value where it stands, assigning to
    an absent key appends, and [del] removes the binding. *)

Module Dict.

Fixpoint get (k : string) (d : list (string * string)) : option string :=
  match d with
  | [] => None
  | (k', v) :: d' => if String.eqb k k' then Some v else get k d'
  end.

(** [k in d] *)
Definition mem (k : string) (d : list (string * string)) : bool :=
  match get k d with Some _ => true | None => false end.

(** [d[k] = v] *)
Fixpoint set (k v : string) (d : list (string * string))
  : list (string * string) :=
  match d with
  | [] => [(k, v)]
  | (k', v') :: d' =>
      if String.eqb k k' then (k, v) :: d' else (k', v') :: set k v d'
  end.

(** [del d[k]] *)
Fixpoint del (k : string) (d : list (string * string))
  : list (string * string) :=
  match d with
  | [] => []
  | (k', v') :: d' => if String.eqb k k' then d' else (k', v') :: del k d'
  end.

(** [next(iter(d))] *)
Definition first (d : list (string * string)) : option string :=
  match d with
  | [] => None
  | (k, _) :: _ => Some k
  end.

Definition keys (d : list (string * string)) : list string := d.*1.

End Dict.

(** ** Sockets *)

Inductive exn := ValueError | OSError.

(** What a handler does with the client socket before closing it. *)
Inductive client_io :=
| NoResponse                  (* plain [return]: nothing is written *)
| Sendall (data : bytes)      (* one [sendall] *)
| Raised (e : exn).           (* nothing is written, [e] leaves the handler *)

(** What the origin server does when the proxy connects to it: it refuses
    the connection, or it accepts it and [reply] gives the bytes waiting on
    the socket once the request text has been sent. *)
Inductive origin :=
| Refuses
| Serves (reply : string -> bytes).

(** What the proxy did with the origin server. *)
Inductive upstream_io :=
| NotContacted
| ConnectFailed
| Forwarded (web_request : string).

Definition CRLF : string := String "013" (String "010" EmptyString).

(** ** [webServer.py] *)

Module WebServer.

Definition handle_client (request : string) : client_io :=
  match Py.splitlines request with
  | [] => NoResponse
  | request_line :: _ =>
      match Py.split request_line with
      | [method; uri; version] =>
          if negb (String.eqb method "GET") then
            Sendall
              (Py.encode ("HTTP/1.1 501 Not Implemented" +:+ CRLF +:+ CRLF))
          else
            match Py.int (Py.lstrip_char "/" uri) with
            | Some size =>
                if (size <? 100) || (size >? 20000) then
                  Sendall
                    (Py.encode ("HTTP/1.1 400 Bad Request" +:+ CRLF +:+ CRLF))
                else
                  let content :=
                    "<HTML><BODY>"
                    +:+ Py.repeat_char "a" (Z.to_nat (size - 26))
                    +:+ "</BODY></HTML>" in
                  let response :=
                    "HTTP/1.1 200 OK" +:+ CRLF
                    +:+ "Content-Type: text/html" +:+ CRLF
                    +:+ "Content-Length: " +:+ Py.str_nat (Py.len content)
                    +:+ CRLF +:+ CRLF +:+ content in
                  Sendall (Py.encode response)
            | None =>
                Sendall
                  (Py.encode ("HTTP/1.1 400 Bad Request" +:+ CRLF +:+ CRLF))
            end
      | _ => Raised ValueError   (* the three-way unpacking fails *)
      end
  end.

(** The origin server as the proxy sees it. *)
Definition serve (web_request : string) : bytes :=
  match handle_client web_request with
  | Sendall data => data
  | NoResponse | Raised _ => []
  end.

End WebServer.

(** ** [proxyServer.py] *)

Definition CACHE_SIZE_LIMIT : nat := 10.

(** The proxy object and the directory [CACHE_DIR].  Files are named
    relative to the directory; writing and removing a file always
    succeed. *)
Record proxy := Proxy {
  web_server_host : string;
  web_server_port : N;
  cache : list (string * string);
  cache_dir : gmap string bytes
}.

Definition with_cache (st : proxy) (c : list (string * string))
    (dir : gmap string bytes) : proxy :=
  {| web_server_host := web_server_host st;
     web_server_port := web_server_port st;
     cache := c;
     cache_dir := dir |}.

(** [ProxyServer.__init__]: [dir] is what the cache directory holds when
    the proxy starts. *)
Definition init (host : string) (port : N) (dir : gmap string bytes)
    : proxy :=
  {| web_server_host := host; web_server_port := port;
     cache := []; cache_dir := dir |}.

Definition cache_key (uri : string) : string := Py.replace "/" "_" uri.

Definition is_cache_full (st : proxy) : bool :=
  (CACHE_SIZE_LIMIT <=? length (cache st))%nat.

Definition evict_cache (st : proxy) : proxy :=
  match Dict.first (cache st) with
  | None => st
  | Some oldest_key =>
      match Dict.get oldest_key (cache st) with
      | Some filename =>
          with_cache st (Dict.del oldest_key (cache st))
                     (delete filename (cache_dir st))
      | None => st
      end
  end.

(** Lines 122-124: write the file, then record the URI. *)
Definition cache_store (uri cache_filename : string) (response : bytes)
    (st : proxy) : proxy :=
  with_cache st (Dict.set uri cache_filename (cache st))
             (<[cache_filename := response]> (cache_dir st)).

Definition send_response (status_code : nat) (reason : string)
    (content : string) : bytes :=
  let response_line :=
    "HTTP/1.1 " +:+ Py.str_nat status_code +:+ " " +:+ reason +:+ CRLF in
  let headers :=
    "Content-Type: text/html" +:+ CRLF
    +:+ "Content-Length: " +:+ Py.str_nat (Py.len content) +:+ CRLF +:+ CRLF in
  Py.encode (response_line +:+ headers +:+ content).

Record result := Result {
  after : proxy;
  to_client : client_io;
  to_upstream : upstream_io
}.

(** A locally generated response: state untouched, origin not contacted. *)
Definition respond (st : proxy) (status_code : nat) (reason : string)
    : result :=
  {| after := st;
     to_client := Sendall (send_response status_code reason EmptyString);
     to_upstream := NotContacted |}.

(** Lines 72-75. *)
Definition normalize (uri : string) : string :=
  if Py.startswith uri "http://" then
    let uri := Py.drop (Py.len "http://") uri in
    Py.slice_from uri (Py.find uri "/")
  else uri.

(** Lines 86-92: the cache-hit test. *)
Definition not_modified (st : proxy) (uri : string) : bool :=
  match Dict.get uri (cache st) with
  | Some name => (Py.len name mod 2 =? 1)%nat
  | None => false
  end.

(** Lines 106-130, on a file system that takes every file name;
    [forward_fs] below has the other case. *)
Definition forward (st : proxy) (uri version cache_filename : string)
    (o : origin) : result :=
  match o with
  | Refuses =>
      {| after := st;
         to_client := Sendall (send_response 404 "Not Found" EmptyString);
         to_upstream := ConnectFailed |}
  | Serves reply =>
      let web_request :=
        "GET " +:+ uri +:+ " " +:+ version +:+ CRLF
        +:+ "Host: " +:+ web_server_host st +:+ ":"
        +:+ Py.str_N (web_server_port st) +:+ CRLF +:+ CRLF in
      let response := take 4096 (reply web_request) in
      let st := if is_cache_full st then evict_cache st else st in
      let st := cache_store uri cache_filename response st in
      {| after := st;
         to_client := Sendall response;
         to_upstream := Forwarded web_request |}
  end.

(** Lines 67-130, once the request line has given three tokens. *)
Definition handle_request (st : proxy) (method uri version : string)
    (o : origin) : result :=
  if negb (String.eqb method "GET") then respond st 501 "Not Implemented"
  else
    let uri := normalize uri in
    if negb (Py.startswith uri "/") then respond st 400 "Bad Request"
    else
      let cache_filename := cache_key uri in
      if not_modified st uri then respond st 304 "Not Modified"
      else
        match Py.int (Py.drop 1 uri) with
        | Some size =>
            if size >? 9999 then respond st 414 "Request-URI Too Long"
            else forward st uri version cache_filename o
        | None => respond st 400 "Bad Request"
        end.

Definition handle_client (st : proxy) (request : string) (o : origin)
    : result :=
  match Py.splitlines request with
  | [] => {| after := st; to_client := NoResponse;
             to_upstream := NotContacted |}
  | request_line :: _ =>
      let parts := Py.split request_line in
      if (length parts <? 3)%nat then respond st 400 "Bad Request"
      else
        match parts with
        | [method; uri; version] => handle_request st method uri version o
        | _ => {| after := st; to_client := Raised ValueError;
                  to_upstream := NotContacted |}
        end
  end.

(** Requests handled one after the other. *)
Fixpoint run (st : proxy) (reqs : list (string * origin)) : proxy :=
  match reqs with
  | [] => st
  | (request, o) :: reqs' => run (after (handle_client st request o)) reqs'
  end.

Definition req (uri : string) : string :=
  "GET " +:+ uri +:+ " HTTP/1.1" +:+ CRLF +:+ CRLF.

(** ** Vocabulary of the statements *)

(** The tokens of the request line, when the request has a first line. *)
Definition request_parts (request : string) : option (list string) :=
  match Py.splitlines request with
  | [] => None
  | request_line :: _ => Some (Py.split request_line)
  end.

(** The checks of lines 77-104 on a normalized URI, the cache-hit test
    left aside: a leading slash, then an integer that is at most 9999. *)
Definition valid_uri (uri : string) : bool :=
  Py.startswith uri "/" &&
  match Py.int (Py.drop 1 uri) with
  | Some size => negb (size >? 9999)
  | None => false
  end.

(** The two operations on the cache.  [handle_client] stores under the URI
    it has validated, in the file [cache_key uri]. *)
Inductive cache_op :=
| Evict
| Store (uri : string) (response : bytes).

Definition exec_op (st : proxy) (op : cache_op) : proxy :=
  match op with
  | Evict => evict_cache st
  | Store uri response => cache_store uri (cache_key uri) response st
  end.

Definition op_valid (op : cache_op) : Prop :=
  match op with
  | Evict => True
  | Store uri _ => valid_uri uri = true
  end.

Definition exec_ops (st : proxy) (ops : list cache_op) : proxy :=
  foldl exec_op st ops.

(** States the proxy can be in: it starts with an empty index over any
    directory, and then evicts and stores. *)
Inductive reachable : proxy -> Prop :=
| reach_init host port dir : reachable (init host port dir)
| reach_op st op :
    reachable st -> op_valid op -> reachable (exec_op st op).

(** Insertion times.  Operations are numbered as they run; [born k] is the
    number of the operation that put [k] in the index, for every [k] now
    in it: a key that was in the index before an operation keeps its time,
    a key that was not gets the number of the operation. *)
Record traced := Traced {
  current : proxy;
  clock : nat;
  born : string -> nat
}.

Definition trace_op (t : traced) (op : cache_op) : traced :=
  {| current := exec_op (current t) op;
     clock := S (clock t);
     born := fun k =>
       if Dict.mem k (cache (current t)) then born t k else clock t |}.

Definition trace_ops (st : proxy) (ops : list cache_op) : traced :=
  foldl trace_op {| current := st; clock := O; born := fun _ => O |} ops.

(** The request [GET uri HTTP/1.1] with no header. *)
Definition get_request (uri : string) : string :=
  "GET " +:+ uri +:+ " HTTP/1.1" +:+ CRLF +:+ CRLF.

(** A string without slash: [cache_key] leaves it as it is. *)
Definition plain (s : string) : Prop := Py.replace "/" "_" s = s.

(** What holds of every reachable state: keys are unique and validated,
    each is bound to its own file name, and that file is in the
    directory. *)
Definition cache_inv (st : proxy) : Prop :=
  NoDup (Dict.keys (cache st)) /\
  forall k v, (k, v) ∈ cache st ->
    valid_uri k = true /\ v = cache_key k /\ is_Some (cache_dir st !! v).

(** The index lists its keys by increasing insertion time, and every
    insertion time is in the past. *)
Definition ordered_by_birth (t : traced) : Prop :=
  let keys := Dict.keys (cache (current t)) in
  NoDup keys /\
  (forall k, k ∈ keys -> (born t k < clock t)%nat) /\
  (forall i j ki kj,
     keys !! i = Some ki -> keys !! j = Some kj -> (i < j)%nat ->
     (born t ki < born t kj)%nat).

(** ** Sample runs *)

(** The proxy in front of the origin server of [webServer.py], started over
    an empty directory. *)
Definition fresh : proxy := init "localhost" 8080 ∅.

Definition web_server : origin := Serves WebServer.serve.

(** Ten requests for ten URIs, all served. *)
Definition ten_requests : list (string * origin) :=
  (fun uri => (get_request uri, web_server)) <$>
    ["/100"; "/101"; "/102"; "/103"; "/104";
     "/105"; "/106"; "/107"; "/108"; "/109"].

Definition full : proxy := run fresh ten_requests.

(** Ten stores under the same ten URIs. *)
Definition ten_stores : list cache_op :=
  (fun uri => Store uri []) <$>
    ["/100"; "/101"; "/102"; "/103"; "/104";
     "/105"; "/106"; "/107"; "/108"; "/109"].

(** ** Tokens, the forwarded request and the origin server's page *)

Fixpoint every (p : ascii -> bool) (s : string) : bool :=
  match s with
  | EmptyString => true
  | String c s' => p c && every p s'
  end.

Definition no_space (s : string) : bool :=
  every (fun c => negb (Py.is_space c)) s.

Definition no_linebreak (s : string) : bool :=
  every (fun c => negb (Py.is_linebreak c)) s.

(** What [str.split] returns: not empty, no whitespace. *)
Definition token (s : string) : bool := negb (Py.is_empty s) && no_space s.

(** Line 111 of [proxyServer.py]: the text sent to the origin server. *)
Definition web_request_text (st : proxy) (uri version : string) : string :=
  "GET " +:+ uri +:+ " " +:+ version +:+ CRLF
  +:+ "Host: " +:+ web_server_host st +:+ ":"
  +:+ Py.str_N (web_server_port st) +:+ CRLF +:+ CRLF.

(** Lines 44-47 of [webServer.py]: the body and the response for [size]. *)
Definition page_content (size : Z) : string :=
  "<HTML><BODY>" +:+ Py.repeat_char "a" (Z.to_nat (size - 26))
  +:+ "</BODY></HTML>".

Definition page (size : Z) : string :=
  "HTTP/1.1 200 OK" +:+ CRLF
  +:+ "Content-Type: text/html" +:+ CRLF
  +:+ "Content-Length: " +:+ Py.str_nat (Py.len (page_content size))
  +:+ CRLF +:+ CRLF +:+ page_content size.

(** Lines 40 and 52 of [webServer.py]. *)
Definition bad_request : bytes :=
  Py.encode ("HTTP/1.1 400 Bad Request" +:+ CRLF +:+ CRLF).

(** Line 32 of [webServer.py]. *)
Definition not_implemented : bytes :=
  Py.encode ("HTTP/1.1 501 Not Implemented" +:+ CRLF +:+ CRLF).

(** ** The handler on a file system that may refuse a file

    [forward] writes the cache file whatever its name.  A file system
    refuses some names, those longer than it allows among them, and then
    [open(cache_filepath, "wb")] on line 122 raises [OSError]: after the
    answer has been received and after any eviction, before anything is
    recorded or sent to the client, and no handler catches it.  Below,
    [fs name] tells whether the file [name] can be created and written in
    the cache directory.  [forward_fs], [handle_request_fs] and
    [handle_client_fs] are lines 46-132 with that case; they agree with
    [forward], [handle_request] and [handle_client] on a file system that
    refuses nothing. *)

Definition forward_fs (fs : string -> bool) (st : proxy)
    (uri version cache_filename : string) (o : origin) : result :=
  match o with
  | Refuses =>
      {| after := st;
         to_client := Sendall (send_response 404 "Not Found" EmptyString);
         to_upstream := ConnectFailed |}
  | Serves reply =>
      let web_request :=
        "GET " +:+ uri +:+ " " +:+ version +:+ CRLF
        +:+ "Host: " +:+ web_server_host st +:+ ":"
        +:+ Py.str_N (web_server_port st) +:+ CRLF +:+ CRLF in
      let response := take 4096 (reply web_request) in
      let st := if is_cache_full st then evict_cache st else st in
      if fs cache_filename then
        {| after := cache_store uri cache_filename response st;
           to_client := Sendall response;
           to_upstream := Forwarded web_request |}
      else
        {| after := st;
           to_client := Raised OSError;
           to_upstream := Forwarded web_request |}
  end.

Definition handle_request_fs (fs : string -> bool) (st : proxy)
    (method uri version : string) (o : origin) : result :=
  if negb (String.eqb method "GET") then respond st 501 "Not Implemented"
  else
    let uri := normalize uri in
    if negb (Py.startswith uri "/") then respond st 400 "Bad Request"
    else
      let cache_filename := cache_key uri in
      if not_modified st uri then respond st 304 "Not Modified"
      else
        match Py.int (Py.drop 1 uri) with
        | Some size =>
            if size >? 9999 then respond st 414 "Request-URI Too Long"
            else forward_fs fs st uri version cache_filename o
        | None => respond st 400 "Bad Request"
        end.

Definition handle_client_fs (fs : string -> bool) (st : proxy)
    (request : string) (o : origin) : result :=
  match Py.splitlines request with
  | [] => {| after := st; to_client := NoResponse;
             to_upstream := NotContacted |}
  | request_line :: _ =>
      let parts := Py.split request_line in
      if (length parts <? 3)%nat then respond st 400 "Bad Request"
      else
        match parts with
        | [method; uri; version] =>
            handle_request_fs fs st method uri version o
        | _ => {| after := st; to_client := Raised ValueError;
                  to_upstream := NotContacted |}
        end
  end.

Fixpoint run_fs (fs : string -> bool) (st : proxy)
    (reqs : list (string * origin)) : proxy :=
  match reqs with
  | [] => st
  | (request, o) :: reqs' =>
      run_fs fs (after (handle_client_fs fs st request o)) reqs'
  end.

(** A file system that takes names of up to 255 characters. *)
Definition short_names (name : string) : bool :=
  (Py.len name <=? 255)%nat.

(** The origin server of [webServer.py] when only the first [n] bytes of
    its answer have arrived by the time the proxy reads. *)
Definition partial_web_server (n : nat) : origin :=
  Serves (fun web_request => take n (WebServer.serve web_request)).

(** A request the origin server is there to answer, and the validated URI
    it is for. *)
Definition served_for (q : string * origin) (u : string) : Prop :=
  exists uri version reply,
    q.2 = Serves reply /\
    request_parts q.1 = Some ["GET"; uri; version] /\
    normalize uri = u /\ valid_uri u = true.

(** * Properties *)

(** ** Strings *)

Section Strings.

Lemma space_not_slash c :
  Py.is_int_space c = true -> Ascii.eqb c "/" = false.
Proof. destruct c as [[] [] [] [] [] [] [] []]; by vm_compute. Qed.

Lemma digit_not_slash c : Py.is_digit c = true -> Ascii.eqb c "/" = false.
Proof. destruct c as [[] [] [] [] [] [] [] []]; by vm_compute. Qed.

Lemma plain_cons c s :
  Ascii.eqb c "/" = false -> plain s -> plain (String c s).
Proof. unfold plain. intros Hc Hs. cbn [Py.replace]. by rewrite Hc, Hs. Qed.

Lemma plain_inv c s :
  plain (String c s) -> Ascii.eqb c "/" = false /\ plain s.
Proof.
  unfold plain. cbn [Py.replace]. intros H. injection H as Hc Hs.
  split; [|done]. destruct (Ascii.eqb_spec c "/") as [->|]; [done|done].
Qed.

Lemma digits_plain s : forall acc b z, Py.digits acc b s = Some z -> plain s.
Proof.
  induction s as [|c s IH]; intros acc b z H; [done|].
  cbn [Py.digits] in H.
  destruct (Py.is_digit c) eqn:Hd.
  - apply plain_cons; [by apply digit_not_slash | eauto].
  - destruct (Ascii.eqb_spec c "_") as [->|]; [|done].
    destruct b; [|done]. apply plain_cons; [done | eauto].
Qed.

Lemma lstrip_plain s : plain (Py.lstrip s) -> plain s.
Proof.
  induction s as [|c s IH]; [done|]. cbn [Py.lstrip].
  destruct (Py.is_int_space c) eqn:Hc; [|done].
  intros H. apply plain_cons; [by apply space_not_slash | auto].
Qed.

Lemma rstrip_plain s : plain (Py.rstrip s) -> plain s.
Proof.
  induction s as [|c s IH]; [done|]. cbn [Py.rstrip].
  destruct (Py.is_empty (Py.rstrip s)) eqn:He;
    destruct (Py.is_int_space c) eqn:Hc; cbn [andb].
  - intros _. apply plain_cons; [by apply space_not_slash|].
    apply IH. by destruct (Py.rstrip s).
  - intros [? ?]%plain_inv. apply plain_cons; auto.
  - intros [? ?]%plain_inv. apply plain_cons; auto.
  - intros [? ?]%plain_inv. apply plain_cons; auto.
Qed.

Lemma int_plain s z : Py.int s = Some z -> plain s.
Proof.
  unfold Py.int, Py.strip. intros H.
  apply lstrip_plain, rstrip_plain.
  destruct (Py.rstrip (Py.lstrip s)) as [|c t]; [done|].
  destruct (Ascii.eqb_spec c "+") as [->|].
  { apply plain_cons; [done | by eapply digits_plain]. }
  destruct (Ascii.eqb_spec c "-") as [->|].
  { apply plain_cons; [done|].
    destruct (Py.digits 0 false t) eqn:Ht; [by eapply digits_plain | done]. }
  by eapply digits_plain.
Qed.

Lemma startswith_slash s :
  Py.startswith s "/" = true -> exists r, s = String "/" r.
Proof.
  destruct s as [|c r]; [done|]. cbn [Py.startswith].
  destruct (Ascii.eqb_spec "/" c) as [<-|]; [eauto | done].
Qed.

(** A validated URI is a slash followed by a string without slash. *)
Lemma valid_uri_shape uri :
  valid_uri uri = true -> exists r, uri = String "/" r /\ plain r.
Proof.
  unfold valid_uri. intros [Hs Hi]%andb_true_iff.
  destruct (startswith_slash _ Hs) as [r ->]. exists r. split; [done|].
  cbn [Py.drop] in Hi.
  destruct (Py.int r) eqn:Hr; [by eapply int_plain | done].
Qed.

Lemma cache_key_valid uri r :
  uri = String "/" r -> plain r -> cache_key uri = String "_" r.
Proof. intros -> Hr. unfold cache_key. cbn [Py.replace]. by rewrite Hr. Qed.

Lemma cache_key_inj k1 k2 :
  valid_uri k1 = true -> valid_uri k2 = true ->
  cache_key k1 = cache_key k2 -> k1 = k2.
Proof.
  intros (r1 & E1 & P1)%valid_uri_shape (r2 & E2 & P2)%valid_uri_shape.
  rewrite (cache_key_valid _ _ E1 P1), (cache_key_valid _ _ E2 P2).
  intros [= ->]. congruence.
Qed.

Lemma cache_key_length uri : Py.len (cache_key uri) = Py.len uri.
Proof.
  unfold cache_key, Py.len.
  induction uri as [|c s IH]; [done|]. cbn. by rewrite IH.
Qed.

Lemma find_from_absent c s :
  forall i, 0 <= i -> Py.find_from i c s = -1 ->
  forall t j, Py.find_from j c (s +:+ String c t) = j + Z.of_nat (Py.len s).
Proof.
  induction s as [|a s IH]; intros i Hi H t j.
  - simpl. rewrite Ascii.eqb_refl. lia.
  - cbn [Py.find_from] in H. simpl.
    destruct (Ascii.eqb a c); [lia|].
    rewrite (IH (i + 1)); [|lia|done]. unfold Py.len. cbn [String.length]. lia.
Qed.

Lemma drop_app s t : Py.drop (Py.len s) (s +:+ t) = t.
Proof. induction s as [|a s IH]; [by destruct t | done]. Qed.

End Strings.

(** ** The dictionary *)

Section Dictionary.

Implicit Types (d : list (string * string)) (k v : string).

Lemma get_head k v d : Dict.get k ((k, v) :: d) = Some v.
Proof. cbn. by rewrite String.eqb_refl. Qed.

Lemma del_head k v d : Dict.del k ((k, v) :: d) = d.
Proof. cbn. by rewrite String.eqb_refl. Qed.

Lemma mem_keys k d : Dict.mem k d = true <-> k ∈ Dict.keys d.
Proof.
  unfold Dict.mem, Dict.keys. induction d as [|[k' v'] d IH]; cbn.
  - split; [done | by intros ?%elem_of_nil].
  - rewrite elem_of_cons. destruct (String.eqb_spec k k') as [->|Hne].
    + split; auto.
    + rewrite IH. split; [auto | by intros [?|?]].
Qed.

Lemma mem_false_keys k d : Dict.mem k d = false <-> k ∉ Dict.keys d.
Proof.
  rewrite <- mem_keys. destruct (Dict.mem k d); split; congruence.
Qed.

Lemma get_elem_of k v d : Dict.get k d = Some v -> (k, v) ∈ d.
Proof.
  induction d as [|[k' v'] d IH]; cbn; [done|].
  destruct (String.eqb_spec k k') as [->|Hne].
  - intros [= ->]. apply elem_of_cons; auto.
  - intros H. apply elem_of_cons; auto.
Qed.

Lemma get_mem k v d : Dict.get k d = Some v -> Dict.mem k d = true.
Proof. unfold Dict.mem. by intros ->. Qed.

Lemma set_present k v d :
  Dict.mem k d = true -> Dict.keys (Dict.set k v d) = Dict.keys d.
Proof.
  unfold Dict.mem, Dict.keys. induction d as [|[k' v'] d IH]; cbn; [done|].
  destruct (String.eqb_spec k k') as [->|Hne]; cbn; [done|].
  intros H. by rewrite IH.
Qed.

Lemma set_absent k v d :
  Dict.mem k d = false -> Dict.set k v d = d ++ [(k, v)].
Proof.
  unfold Dict.mem. induction d as [|[k' v'] d IH]; cbn; [done|].
  destruct (String.eqb_spec k k') as [->|Hne]; [done|].
  intros H. by rewrite IH.
Qed.

Lemma elem_of_set k v d x : x ∈ Dict.set k v d -> x ∈ d \/ x = (k, v).
Proof.
  induction d as [|[k' v'] d IH]; cbn.
  - intros ?%list_elem_of_singleton. auto.
  - destruct (String.eqb_spec k k') as [->|Hne];
      rewrite !elem_of_cons; intuition.
Qed.


Lemma set_NoDup k v d :
  NoDup (Dict.keys d) -> NoDup (Dict.keys (Dict.set k v d)).
Proof.
  intros H. destruct (Dict.mem k d) eqn:Hm.
  - by rewrite set_present.
  - rewrite set_absent by done. unfold Dict.keys in *.
    rewrite fmap_app. apply NoDup_app. split; [done|]. split.
    + intros x Hx ->%list_elem_of_singleton.
      by apply mem_false_keys in Hm.
    + apply NoDup_singleton.
Qed.

End Dictionary.

(** ** Eviction and storing *)

Section Cache.

Implicit Types (st : proxy) (uri k v : string).

Lemma evict_cache_nil st : cache st = [] -> evict_cache st = st.
Proof. unfold evict_cache. by intros ->. Qed.

Lemma evict_cache_cons st k v d :
  cache st = (k, v) :: d ->
  evict_cache st = with_cache st d (delete v (cache_dir st)).
Proof.
  unfold evict_cache. intros ->. cbn [Dict.first].
  by rewrite get_head, del_head.
Qed.

Lemma evict_cache_inv st : cache_inv st -> cache_inv (evict_cache st).
Proof.
  intros [Hnd Hall]. destruct (cache st) as [|[k v] d] eqn:E.
  { rewrite evict_cache_nil by done. split; [by rewrite E | by rewrite E]. }
  rewrite (evict_cache_cons _ _ _ _ E). unfold cache_inv. cbn.
  unfold Dict.keys in Hnd. cbn in Hnd. apply NoDup_cons in Hnd as [Hk Hd].
  split; [done|]. intros k' v' Hin.
  destruct (Hall k' v') as (Hv & -> & Hf); [by apply elem_of_cons; right|].
  destruct (Hall k v) as (Hv0 & -> & _); [by apply elem_of_cons; left|].
  split; [done|]. split; [done|].
  rewrite lookup_delete_ne; [done|].
  intros Heq. apply cache_key_inj in Heq; [|done..]. subst k'.
  apply Hk. apply list_elem_of_fmap. by exists (k, cache_key k).
Qed.

Lemma cache_store_inv st uri response :
  valid_uri uri = true -> cache_inv st ->
  cache_inv (cache_store uri (cache_key uri) response st).
Proof.
  intros Hu [Hnd Hall]. unfold cache_inv, cache_store. cbn.
  split; [by apply set_NoDup|]. intros k v [Hin|[= -> ->]]%elem_of_set.
  - destruct (Hall k v Hin) as (? & ? & Hf). split; [done|]. split; [done|].
    rewrite lookup_insert. case_decide; [by eexists | done].
  - split; [done|]. split; [done|]. rewrite lookup_insert_eq. by eexists.
Qed.

Lemma reachable_inv st : reachable st -> cache_inv st.
Proof.
  induction 1 as [host port dir | st op _ IH Hop].
  - split; cbn; [apply NoDup_nil_2 | by intros k v ?%elem_of_nil].
  - destruct op as [|uri response]; cbn.
    + by apply evict_cache_inv.
    + by apply cache_store_inv.
Qed.

End Cache.

(** ** The request pipeline *)

(** Enter [handle_request] past the method test of a [GET]. *)
Ltac enter_get :=
  unfold handle_request; cbn [String.eqb Ascii.eqb Bool.eqb negb].

Section Pipeline.

Implicit Types (st : proxy) (request method uri version : string)
  (o : origin).

Lemma handle_client_parts st request o parts :
  request_parts request = Some parts ->
  handle_client st request o =
    if (length parts <? 3)%nat then respond st 400 "Bad Request"
    else match parts with
         | [method; uri; version] => handle_request st method uri version o
         | _ => {| after := st; to_client := Raised ValueError;
                   to_upstream := NotContacted |}
         end.
Proof.
  unfold request_parts, handle_client.
  destruct (Py.splitlines request); [done|]. by intros [= ->].
Qed.

Lemma handle_client_three st request o method uri version :
  request_parts request = Some [method; uri; version] ->
  handle_client st request o = handle_request st method uri version o.
Proof. intros H. by rewrite (handle_client_parts _ _ _ _ H). Qed.

(** The state after [forward] is the state before, with at most one
    eviction and then one store. *)
Lemma forward_ops st uri version o :
  exists ops,
    (length ops <= 2)%nat /\
    (forall op, op ∈ ops -> op = Evict \/ exists r, op = Store uri r) /\
    after (forward st uri version (cache_key uri) o) = exec_ops st ops.
Proof.
  destruct o as [|reply]; cbn [forward after].
  - exists []. split; [cbn; lia|]. split; [by intros ? ?%elem_of_nil | done].
  - destruct (is_cache_full st).
    + eexists [Evict; Store uri _]. split; [cbn; lia|]. split; [|done].
      intros op [->|[->|?%elem_of_nil]%elem_of_cons]%elem_of_cons;
        [auto | eauto | done].
    + eexists [Store uri _]. split; [cbn; lia|]. split; [|done].
      intros op [->|?%elem_of_nil]%elem_of_cons; [eauto | done].
Qed.

(** Whatever the request, [handle_client] either leaves the state alone
    or runs [forward] on a validated URI. *)
Lemma handle_client_after st request o :
  after (handle_client st request o) = st \/
  exists uri version,
    valid_uri uri = true /\ not_modified st uri = false /\
    handle_client st request o = forward st uri version (cache_key uri) o.
Proof.
  unfold handle_client.
  destruct (Py.splitlines request) as [|line ?]; [by left|].
  destruct (length (Py.split line) <? 3)%nat; [by left|].
  destruct (Py.split line) as [|method [|uri [|version [|]]]]; try by left.
  unfold handle_request.
  destruct (negb (String.eqb method "GET")); [by left|].
  destruct (Py.startswith (normalize uri) "/") eqn:Hs; [|by left].
  cbn [negb]. destruct (not_modified st (normalize uri)) eqn:Hn; [by left|].
  destruct (Py.int (Py.drop 1 (normalize uri))) as [size|] eqn:Hi;
    [|by left].
  destruct (size >? 9999) eqn:Hsz; [by left|].
  right. exists (normalize uri), version. split; [|done].
  unfold valid_uri. by rewrite Hs, Hi, Hsz.
Qed.

Lemma exec_ops_reachable st ops :
  reachable st -> Forall op_valid ops -> reachable (exec_ops st ops).
Proof.
  unfold exec_ops. intros Hst Hops. revert st Hst.
  induction Hops as [|op ops Hop _ IH]; intros st Hst; [done|].
  cbn. apply IH. by apply reach_op.
Qed.

Lemma handle_client_reachable st request o :
  reachable st -> reachable (after (handle_client st request o)).
Proof.
  intros Hst.
  destruct (handle_client_after st request o)
    as [->|(uri & version & Hv & _ & ->)]; [done|].
  destruct (forward_ops st uri version o) as (ops & _ & Hops & ->).
  apply exec_ops_reachable; [done|]. apply Forall_forall.
  intros op [->|[r ->]]%Hops; [done | exact Hv].
Qed.

Lemma run_reachable st reqs : reachable st -> reachable (run st reqs).
Proof.
  revert st. induction reqs as [|[request o] reqs IH]; intros st Hst;
    [done|].
  cbn. by apply IH, handle_client_reachable.
Qed.

Lemma evict_cache_length st :
  cache st <> [] -> S (length (cache (evict_cache st))) = length (cache st).
Proof.
  destruct (cache st) as [|[k v] d] eqn:E; [done|]. intros _.
  by rewrite (evict_cache_cons _ _ _ _ E).
Qed.

Lemma is_cache_full_nonempty st : is_cache_full st = true -> cache st <> [].
Proof.
  unfold is_cache_full, CACHE_SIZE_LIMIT.
  intros H%Nat.leb_le E. rewrite E in H. cbn in H. lia.
Qed.




End Pipeline.

(** ** Bounded size *)



(** ** Insertion order *)

Section Fifo.

Implicit Types (t : traced) (op : cache_op) (k : string).

Lemma born_kept t op k :
  k ∈ Dict.keys (cache (current t)) -> born (trace_op t op) k = born t k.
Proof. intros H%mem_keys. cbn. by rewrite H. Qed.

Lemma born_new t op k :
  k ∉ Dict.keys (cache (current t)) -> born (trace_op t op) k = clock t.
Proof. intros H%mem_false_keys. cbn. by rewrite H. Qed.

Lemma trace_op_ordered t op :
  ordered_by_birth t -> ordered_by_birth (trace_op t op).
Proof.
  intros (Hnd & Hpast & Hsort). unfold ordered_by_birth.
  change (clock (trace_op t op)) with (S (clock t)).
  change (current (trace_op t op)) with (exec_op (current t) op).
  destruct op as [|uri response]; cbn [exec_op].
  - (* eviction *)
    destruct (cache (current t)) as [|[k0 v0] d] eqn:E.
    { rewrite evict_cache_nil, E by done. cbn.
      split; [apply NoDup_nil_2|]. split; [by intros k ?%elem_of_nil|].
      by intros i j ki kj ?. }
    rewrite (evict_cache_cons _ _ _ _ E). cbn [with_cache cache].
    unfold Dict.keys in *. cbn in Hnd.
    apply NoDup_cons in Hnd as [Hk0 Hd].
    assert (Hold : forall k, k ∈ d.*1 ->
              born (trace_op t Evict) k = born t k).
    { intros k Hk. apply born_kept. rewrite E. cbn.
      by apply elem_of_cons; right. }
    split; [done|]. split.
    + intros k Hk. rewrite Hold by done.
      specialize (Hpast k). cbn in Hpast.
      assert (born t k < clock t)%nat; [|lia].
      apply Hpast. by apply elem_of_cons; right.
    + intros i j ki kj Hi Hj Hij.
      rewrite !Hold by (by eapply list_elem_of_lookup_2).
      apply (Hsort (S i) (S j)); [done | done | lia].
  - (* store *)
    cbn [cache_store with_cache cache].
    assert (Hold : forall k, k ∈ Dict.keys (cache (current t)) ->
              born (trace_op t (Store uri response)) k = born t k)
      by (intros; by apply born_kept).
    destruct (Dict.mem uri (cache (current t))) eqn:Hm.
    + rewrite set_present by done.
      split; [done|]. split.
      * intros k Hk. rewrite Hold by done. specialize (Hpast k Hk). lia.
      * intros i j ki kj Hi Hj Hij.
        rewrite !Hold by (by eapply list_elem_of_lookup_2). eauto.
    + assert (Hnew : born (trace_op t (Store uri response)) uri = clock t)
        by (by apply born_new, mem_false_keys).
      rewrite set_absent by done. unfold Dict.keys in *.
      rewrite fmap_app. cbn [fmap list_fmap fst].
      split.
      { apply NoDup_app. split; [done|]. split; [|apply NoDup_singleton].
        intros x Hx ->%list_elem_of_singleton.
        by apply mem_false_keys in Hm. }
      split.
      * intros k [Hk| ->%list_elem_of_singleton]%elem_of_app.
        -- rewrite Hold by done. specialize (Hpast k Hk). lia.
        -- rewrite Hnew. lia.
      * intros i j ki kj Hi Hj Hij.
        apply lookup_app_Some in Hj as [Hj|[Hlen Hj]].
        -- assert (Hi' : (cache (current t)).*1 !! i = Some ki).
           { rewrite lookup_app_l in Hi; [done|].
             apply lookup_lt_Some in Hj. lia. }
           rewrite !Hold by (by eapply list_elem_of_lookup_2). eauto.
        -- apply list_lookup_singleton_Some in Hj as [Hz <-].
           rewrite Hnew.
           assert (Hi' : (cache (current t)).*1 !! i = Some ki).
           { rewrite lookup_app_l in Hi; [done|]. lia. }
           rewrite Hold by (by eapply list_elem_of_lookup_2).
           apply Hpast. by eapply list_elem_of_lookup_2.
Qed.

Lemma foldl_trace_ordered ops t :
  ordered_by_birth t -> ordered_by_birth (foldl trace_op t ops).
Proof.
  revert t. induction ops as [|op ops IH]; intros t Ht; [done|].
  cbn. by apply IH, trace_op_ordered.
Qed.

Lemma trace_ops_ordered host port dir ops :
  ordered_by_birth (trace_ops (init host port dir) ops).
Proof.
  apply foldl_trace_ordered. unfold ordered_by_birth. cbn.
  split; [apply NoDup_nil_2|]. split; [by intros k ?%elem_of_nil|].
  by intros i j ki kj ?.
Qed.

Lemma foldl_trace_current ops t :
  current (foldl trace_op t ops) = exec_ops (current t) ops.
Proof.
  revert t. induction ops as [|op ops IH]; intros t; [done|].
  cbn. by rewrite IH.
Qed.

(** The traced run is the run. *)
Lemma trace_ops_current st ops :
  current (trace_ops st ops) = exec_ops st ops.
Proof. apply foldl_trace_current. Qed.

End Fifo.

(** ** Index and directory *)

(** C4. In every state reached by evictions and stores from an empty
    index, each URI that is a key of the index is bound to a file name
    whose file is in the cache directory; and evicting on a non-empty index
    removes the first key from the index and its file from the directory
    in the same step. *)
Theorem index_entries_have_files st :
  reachable st ->
  (forall uri, Dict.mem uri (cache st) = true ->
     exists name, Dict.get uri (cache st) = Some name /\
                  is_Some (cache_dir st !! name)) /\
  (forall k name,
     Dict.first (cache st) = Some k -> Dict.get k (cache st) = Some name ->
     Dict.mem k (cache (evict_cache st)) = false /\
     cache_dir (evict_cache st) !! name = None).
Proof.
  intros [Hnd Hall]%reachable_inv. split.
  - intros uri Hm. unfold Dict.mem in Hm.
    destruct (Dict.get uri (cache st)) as [name|] eqn:Hg; [|done].
    exists name. split; [done|].
    by destruct (Hall uri name (get_elem_of _ _ _ Hg)) as (_ & _ & ?).
  - intros k name Hk Hg. destruct (cache st) as [|[k0 v0] d] eqn:E; [done|].
    cbn in Hk. injection Hk as ->. rewrite get_head in Hg. injection Hg as ->.
    rewrite (evict_cache_cons _ _ _ _ E). cbn [with_cache cache cache_dir].
    unfold Dict.keys in Hnd. cbn in Hnd. apply NoDup_cons in Hnd as [Hk _].
    split; [by apply mem_false_keys | apply lookup_delete_eq].
Qed.

Lemma index_entries_have_files_witness :
  reachable full /\
  (forall uri, Dict.mem uri (cache full) = true ->
     exists name, Dict.get uri (cache full) = Some name /\
                  is_Some (cache_dir full !! name)) /\
  Dict.mem "/100" (cache (evict_cache full)) = false /\
  cache_dir (evict_cache full) !! "_100" = None.
Proof.
  assert (Hr : reachable full) by (apply run_reachable, reach_init).
  destruct (index_entries_have_files full Hr) as [H1 H2].
  split; [exact Hr|]. split; [exact H1|].
  apply (H2 "/100" "_100"); vm_compute; reflexivity.
Defined.

(** ** Validation *)

Section Validation.

Implicit Types (st : proxy) (request method uri version : string)
  (o : origin).

(** Only validated URIs are in the index, so the cache-hit test can only
    succeed on a validated URI. *)
Lemma not_modified_valid st uri :
  reachable st -> not_modified st uri = true -> valid_uri uri = true.
Proof.
  intros [_ Hall]%reachable_inv. unfold not_modified.
  destruct (Dict.get uri (cache st)) as [name|] eqn:Hg; [|done].
  intros _. by destruct (Hall uri name (get_elem_of _ _ _ Hg)).
Qed.

Lemma not_modified_unparsed st uri :
  reachable st -> Py.int (Py.drop 1 uri) = None ->
  not_modified st uri = false.
Proof.
  intros Hst Hi. destruct (not_modified st uri) eqn:Hn; [|done].
  apply (not_modified_valid _ _ Hst) in Hn. unfold valid_uri in Hn.
  rewrite Hi in Hn. by destruct (Py.startswith uri "/").
Qed.

Lemma not_modified_oversized st uri size :
  reachable st -> Py.int (Py.drop 1 uri) = Some size -> 9999 < size ->
  not_modified st uri = false.
Proof.
  intros Hst Hi Hsz. destruct (not_modified st uri) eqn:Hn; [|done].
  apply (not_modified_valid _ _ Hst) in Hn. unfold valid_uri in Hn.
  rewrite Hi in Hn. apply andb_true_iff in Hn as [_ Hn].
  apply negb_true_iff in Hn. rewrite Z.gtb_ltb in Hn.
  apply Z.ltb_ge in Hn. lia.
Qed.

Lemma not_modified_length st uri :
  reachable st ->
  not_modified st uri
  = Dict.mem uri (cache st) && (Py.len uri mod 2 =? 1)%nat.
Proof.
  intros [_ Hall]%reachable_inv. unfold not_modified, Dict.mem.
  destruct (Dict.get uri (cache st)) as [name|] eqn:Hg; [|done].
  destruct (Hall uri name (get_elem_of _ _ _ Hg)) as (_ & -> & _).
  by rewrite cache_key_length.
Qed.

Lemma normalize_relative uri :
  Py.startswith uri "/" = true -> normalize uri = uri.
Proof. intros [r ->]%startswith_slash. reflexivity. Qed.

Lemma splitlines_go_nonempty s c cur :
  Py.splitlines_go (String c cur) s <> [].
Proof.
  revert c cur. induction s as [|a s IH]; intros c cur; [done|].
  cbn [Py.splitlines_go]. destruct (Py.is_linebreak a); [done | apply IH].
Qed.

(** Only the empty text has no line. *)
Lemma request_parts_none request :
  request_parts request = None <-> request = EmptyString.
Proof.
  split; [|by intros ->]. unfold request_parts, Py.splitlines.
  destruct request as [|a s]; [done|]. cbn [Py.splitlines_go].
  destruct (Py.is_linebreak a); [done|].
  pose proof (splitlines_go_nonempty s a EmptyString).
  by destruct (Py.splitlines_go (String a EmptyString) s).
Qed.

End Validation.

(** C5. In every reachable state a GET request for [/99999] is answered
    414 without touching the cache or the origin server.  More generally,
    in any state, when the normalized URI starts with a slash and its size
    segment parses as an integer above 9999, the cache-hit test comes
    first: the answer is 304 when that test succeeds and 414 otherwise. *)
Theorem oversized_uri_gets_414 :
  (forall st request version o,
     reachable st ->
     request_parts request = Some ["GET"; "/99999"; version] ->
     handle_client st request o = respond st 414 "Request-URI Too Long") /\
  (forall st request uri version size o,
     request_parts request = Some ["GET"; uri; version] ->
     Py.startswith (normalize uri) "/" = true ->
     Py.int (Py.drop 1 (normalize uri)) = Some size ->
     9999 < size ->
     handle_client st request o =
       if not_modified st (normalize uri)
       then respond st 304 "Not Modified"
       else respond st 414 "Request-URI Too Long").
Proof.
  assert (Hgen : forall st request uri version size o,
     request_parts request = Some ["GET"; uri; version] ->
     Py.startswith (normalize uri) "/" = true ->
     Py.int (Py.drop 1 (normalize uri)) = Some size ->
     9999 < size ->
     handle_client st request o =
       if not_modified st (normalize uri)
       then respond st 304 "Not Modified"
       else respond st 414 "Request-URI Too Long").
  { intros st request uri version size o Hp Hs Hi Hsz.
    rewrite (handle_client_three _ _ _ _ _ _ Hp). enter_get.
    rewrite Hs. cbn [negb].
    destruct (not_modified st (normalize uri)); [done|].
    rewrite Hi. by rewrite (proj2 (Z.gtb_lt size 9999) Hsz). }
  split; [|exact Hgen].
  intros st request version o Hst Hp.
  rewrite (Hgen st request "/99999" version 99999 o Hp); [|done..].
  by rewrite (not_modified_oversized st _ 99999 Hst).
Qed.

Lemma oversized_uri_gets_414_witness :
  handle_client full (get_request "/99999") web_server
  = respond full 414 "Request-URI Too Long" /\
  let st := Proxy "localhost" 8080 [("/100000", "_100000")] ∅ in
  handle_client st (get_request "/100000") web_server
  = respond st 304 "Not Modified".
Proof.
  split.
  - apply (proj1 oversized_uri_gets_414 full (get_request "/99999")
             "HTTP/1.1").
    + apply run_reachable, reach_init.
    + vm_compute; reflexivity.
  - intros st.
    apply (proj2 oversized_uri_gets_414 st (get_request "/100000")
             "/100000" "HTTP/1.1" 100000 web_server).
    + vm_compute; reflexivity.
    + vm_compute; reflexivity.
    + vm_compute; reflexivity.
    + lia.
Defined.

(** ** Normalization *)

(** C6. An absolute URI [http://host/path], where [host] has no slash,
    is normalized to [/path]: the scheme and the host are dropped and the
    path keeps its leading slash.  So [http://localhost:8080/200] becomes
    [/200], and a request for it is handled, validated and cached exactly
    as a request for [/200]. *)
Theorem absolute_uri_normalized :
  (forall host path,
     Py.find host "/" = -1 ->
     normalize ("http://" +:+ host +:+ "/" +:+ path) = "/" +:+ path) /\
  normalize "http://localhost:8080/200" = "/200" /\
  (forall st version o,
     handle_request st "GET" "http://localhost:8080/200" version o
     = handle_request st "GET" "/200" version o).
Proof.
  split; [|split].
  - intros host path Hfind. unfold normalize.
    change ("http://" +:+ host +:+ "/" +:+ path)
      with ("http://" +:+ (host +:+ String "/" path)).
    change (Py.startswith ("http://" +:+ (host +:+ String "/" path)) "http://")
      with true.
    cbn match.
    change (Py.drop (Py.len "http://")
              ("http://" +:+ (host +:+ String "/" path)))
      with (host +:+ String "/" path).
    unfold Py.find in *.
    rewrite (find_from_absent "/" host 0 ltac:(lia) Hfind path 0).
    unfold Py.slice_from.
    destruct (Z.ltb_spec (0 + Z.of_nat (Py.len host)) 0) as [?|_]; [lia|].
    replace (Z.to_nat (0 + Z.of_nat (Py.len host))) with (Py.len host) by lia.
    apply drop_app.
  - reflexivity.
  - intros st version o. unfold handle_request.
    change (normalize "http://localhost:8080/200") with "/200".
    change (normalize "/200") with "/200". reflexivity.
Qed.

Lemma absolute_uri_normalized_witness :
  normalize ("http://" +:+ "example.org:80" +:+ "/" +:+ "4000") = "/4000".
Proof.
  apply (proj1 absolute_uri_normalized "example.org:80" "4000").
  reflexivity.
Defined.

(** ** Upstream failure *)

(** C7. When the origin server refuses the connection, the state, index
    and directory alike, is what it was before the request; and if the
    request has passed validation, the client is sent 404 Not Found. *)
Theorem refused_upstream_gets_404 st request :
  after (handle_client st request Refuses) = st /\
  (forall uri version,
     request_parts request = Some ["GET"; uri; version] ->
     valid_uri (normalize uri) = true ->
     not_modified st (normalize uri) = false ->
     handle_client st request Refuses =
       {| after := st;
          to_client := Sendall (send_response 404 "Not Found" EmptyString);
          to_upstream := ConnectFailed |}).
Proof.
  split.
  - destruct (handle_client_after st request Refuses)
      as [?|(uri & version & _ & _ & ->)]; done.
  - intros uri version Hp Hv Hn.
    rewrite (handle_client_three _ _ _ _ _ _ Hp). enter_get. rewrite Hn.
    unfold valid_uri in Hv. apply andb_true_iff in Hv as [-> Hv]. cbn [negb].
    destruct (Py.int (Py.drop 1 (normalize uri))) as [size|]; [|done].
    apply negb_true_iff in Hv. by rewrite Hv.
Qed.

Lemma refused_upstream_gets_404_witness :
  handle_client full (get_request "/300") Refuses =
    {| after := full;
       to_client := Sendall (send_response 404 "Not Found" EmptyString);
       to_upstream := ConnectFailed |}.
Proof.
  apply (proj2 (refused_upstream_gets_404 full (get_request "/300"))
           "/300" "HTTP/1.1"); vm_compute; reflexivity.
Defined.

(** ** Malformed requests *)

(** C8. A request with no line, which is the empty text only, is dropped
    without any response; a request line of fewer than three tokens is
    answered 400; a three-token request line whose method is not [GET] is
    answered 501; and, in a reachable state, a [GET] whose normalized URI
    starts with a slash followed by something that is not an integer is
    answered 400.  In each case the state is left as it is and the origin
    server is not contacted. *)
Theorem malformed_requests_rejected st o :
  (forall request,
     request_parts request = None ->
     request = EmptyString /\
     handle_client st request o =
       {| after := st; to_client := NoResponse;
          to_upstream := NotContacted |}) /\
  (forall request parts,
     request_parts request = Some parts -> (length parts < 3)%nat ->
     handle_client st request o = respond st 400 "Bad Request") /\
  (forall request method uri version,
     request_parts request = Some [method; uri; version] ->
     method <> "GET" ->
     handle_client st request o = respond st 501 "Not Implemented") /\
  (forall request uri version,
     reachable st ->
     request_parts request = Some ["GET"; uri; version] ->
     Py.startswith (normalize uri) "/" = true ->
     Py.int (Py.drop 1 (normalize uri)) = None ->
     handle_client st request o = respond st 400 "Bad Request").
Proof.
  split; [|split; [|split]].
  - intros request Hp. split; [by apply request_parts_none|].
    unfold request_parts in Hp. unfold handle_client.
    by destruct (Py.splitlines request).
  - intros request parts Hp Hlen.
    rewrite (handle_client_parts _ _ _ _ Hp).
    by rewrite (proj2 (Nat.ltb_lt _ _) Hlen).
  - intros request method uri version Hp Hm.
    rewrite (handle_client_three _ _ _ _ _ _ Hp). unfold handle_request.
    by destruct (String.eqb_spec method "GET").
  - intros request uri version Hst Hp Hs Hi.
    rewrite (handle_client_three _ _ _ _ _ _ Hp). enter_get.
    rewrite Hs. cbn [negb].
    by rewrite (not_modified_unparsed _ _ Hst Hi), Hi.
Qed.

Lemma malformed_requests_rejected_witness :
  handle_client full EmptyString web_server =
    {| after := full; to_client := NoResponse;
       to_upstream := NotContacted |} /\
  handle_client full "GET /100" web_server = respond full 400 "Bad Request" /\
  handle_client full "POST /100 HTTP/1.1" web_server
  = respond full 501 "Not Implemented" /\
  handle_client full "GET /abc HTTP/1.1" web_server
  = respond full 400 "Bad Request".
Proof.
  destruct (malformed_requests_rejected full web_server)
    as (H1 & H2 & H3 & H4).
  split; [|split; [|split]].
  - apply H1. reflexivity.
  - apply (H2 _ ["GET"; "/100"]); [reflexivity | cbn; lia].
  - apply (H3 _ "POST" "/100" "HTTP/1.1"); [reflexivity | discriminate].
  - apply (H4 _ "/abc" "HTTP/1.1"); [|reflexivity..].
    apply run_reachable, reach_init.
Defined.

(** ** Extra tokens *)

(** C9. When the request line splits into more than three tokens, the
    three-way unpacking raises [ValueError] in the proxy's handler and in
    the origin server's handler alike: nothing is written to the client,
    and the proxy neither contacts the origin server nor changes its
    state. *)
Theorem extra_tokens_raise st request o parts :
  request_parts request = Some parts ->
  (3 < length parts)%nat ->
  handle_client st request o =
    {| after := st; to_client := Raised ValueError;
       to_upstream := NotContacted |} /\
  WebServer.handle_client request = Raised ValueError.
Proof.
  intros Hp Hlen. split.
  - rewrite (handle_client_parts _ _ _ _ Hp).
    destruct parts as [|a [|b [|c [|d parts]]]]; cbn in Hlen; try lia.
    reflexivity.
  - unfold request_parts in Hp. unfold WebServer.handle_client.
    destruct (Py.splitlines request) as [|line rest]; [done|].
    injection Hp as ->.
    destruct parts as [|a [|b [|c [|d parts]]]]; cbn in Hlen; try lia.
    reflexivity.
Qed.

Lemma extra_tokens_raise_witness :
  handle_client full "GET /100 HTTP/1.1 extra" web_server =
    {| after := full; to_client := Raised ValueError;
       to_upstream := NotContacted |} /\
  WebServer.handle_client "GET /100 HTTP/1.1 extra" = Raised ValueError.
Proof.
  apply (extra_tokens_raise full "GET /100 HTTP/1.1 extra" web_server
           ["GET"; "/100"; "HTTP/1.1"; "extra"]); [reflexivity | cbn; lia].
Defined.

(** ** The cache-hit test *)

(** C10. In every reachable state the index binds a URI to
    [cache_key uri], a string as long as the URI.  So the test of lines
    89-90 measures the URI: it succeeds exactly when the URI is a key and
    its number of characters is odd, whatever the cache directory holds;
    and a [GET] for a URI that is a key is answered 304 exactly when the
    URI has an odd number of characters. *)
Theorem hit_test_measures_uri st uri :
  reachable st ->
  (forall name, Dict.get uri (cache st) = Some name ->
     name = cache_key uri /\ Py.len name = Py.len uri) /\
  not_modified st uri
  = Dict.mem uri (cache st) && (Py.len uri mod 2 =? 1)%nat /\
  (forall dir,
     not_modified (with_cache st (cache st) dir) uri = not_modified st uri) /\
  (forall version o,
     Dict.mem uri (cache st) = true ->
     handle_request st "GET" uri version o = respond st 304 "Not Modified"
     <-> (Py.len uri mod 2 =? 1)%nat = true).
Proof.
  intros Hst. pose proof (reachable_inv _ Hst) as [_ Hall].
  split; [|split; [|split]].
  - intros name Hg.
    destruct (Hall uri name (get_elem_of _ _ _ Hg)) as (_ & -> & _).
    split; [done | apply cache_key_length].
  - by apply not_modified_length.
  - done.
  - intros version o Hm.
    pose proof (not_modified_length st uri Hst) as Hn. rewrite Hm in Hn.
    cbn [andb] in Hn.
    assert (Hv : valid_uri uri = true).
    { unfold Dict.mem in Hm.
      destruct (Dict.get uri (cache st)) as [name|] eqn:Hg; [|done].
      by destruct (Hall uri name (get_elem_of _ _ _ Hg)). }
    pose proof Hv as Hv'. unfold valid_uri in Hv'.
    apply andb_true_iff in Hv' as [Hs Hi].
    enter_get.
    rewrite (normalize_relative _ Hs), Hs, Hn. cbn [negb].
    destruct (Py.len uri mod 2 =? 1)%nat; [done|].
    destruct (Py.int (Py.drop 1 uri)) as [size|]; [|done].
    apply negb_true_iff in Hi. rewrite Hi.
    split; [|done]. intros H. apply (f_equal to_upstream) in H.
    by destruct o.
Qed.

Lemma hit_test_measures_uri_witness :
  not_modified full "/100" = false /\
  (handle_request full "GET" "/100" "HTTP/1.1" web_server
   = respond full 304 "Not Modified"
   <-> (Py.len "/100" mod 2 =? 1)%nat = true).
Proof.
  assert (Hr : reachable full) by (apply run_reachable, reach_init).
  destruct (hit_test_measures_uri full "/100" Hr) as (_ & H2 & _ & H4).
  split.
  - rewrite H2. vm_compute. reflexivity.
  - apply H4. vm_compute. reflexivity.
Defined.

(** ** The cache-hit test and the cached response *)

(** C1. The origin server answers [GET /200] with 265 bytes, an odd
    number; the proxy stores them in [_200] and records [/200].  The same
    request, sent again at once, is not answered 304: the URI has four
    characters, so the request is forwarded again and the 265 bytes are
    relayed.  In the other direction, [GET /1000] is answered with 1066
    bytes, an even number, and the repeated request is answered 304. *)
Theorem odd_response_is_refetched :
  let first := handle_client fresh (get_request "/200") web_server in
  let again := handle_client (after first) (get_request "/200") web_server in
  (exists response,
     cache_dir (after first) !! "_200" = Some response /\
     length response = 265%nat /\
     Dict.mem "/200" (cache (after first)) = true /\
     to_client again = Sendall response /\
     to_client again
       <> Sendall (send_response 304 "Not Modified" EmptyString) /\
     exists web_request, to_upstream again = Forwarded web_request) /\
  let first := handle_client fresh (get_request "/1000") web_server in
  let again := handle_client (after first) (get_request "/1000") web_server in
  (exists response,
     cache_dir (after first) !! "_1000" = Some response /\
     length response = 1066%nat /\
     again = respond (after first) 304 "Not Modified").
Proof.
  split.
  - eexists. split; [vm_compute; reflexivity|].
    split; [vm_compute; reflexivity|]. split; [vm_compute; reflexivity|].
    split; [vm_compute; reflexivity|]. split; [by vm_compute|].
    eexists. vm_compute. reflexivity.
  - eexists. split; [vm_compute; reflexivity|].
    split; vm_compute; reflexivity.
Qed.

(** * Further properties *)

(** ** Text *)

Section Text.

Implicit Types (s t u cur line tok : string) (p : ascii -> bool).

Lemma app_cons a s t : String a s +:+ t = String a (s +:+ t).
Proof. reflexivity. Qed.

Lemma app_nil_r s : s +:+ EmptyString = s.
Proof. induction s as [|a s IH]; [done|]. by rewrite app_cons, IH. Qed.

Lemma app_assoc s t u : (s +:+ t) +:+ u = s +:+ t +:+ u.
Proof. induction s as [|a s IH]; [done|]. by rewrite !app_cons, IH. Qed.

Lemma len_app s t : Py.len (s +:+ t) = (Py.len s + Py.len t)%nat.
Proof.
  unfold Py.len. induction s as [|a s IH]; [done|].
  rewrite app_cons. cbn [String.length]. by rewrite IH.
Qed.

Lemma len_repeat c n : Py.len (Py.repeat_char c n) = n.
Proof.
  unfold Py.len. induction n as [|n IH]; [done|].
  cbn [Py.repeat_char String.length]. by rewrite IH.
Qed.

Lemma rev_app_app s t : String.rev_app s t = String.rev s +:+ t.
Proof.
  unfold String.rev. revert t. induction s as [|a s IH]; intros t; [done|].
  cbn [String.rev_app].
  rewrite (IH (String a t)), (IH (String a EmptyString)).
  by rewrite app_assoc.
Qed.

Lemma rev_rev_app s cur :
  String.rev (String.rev_app s cur) = String.rev cur +:+ s.
Proof.
  revert cur. induction s as [|a s IH]; intros cur.
  - symmetry. apply app_nil_r.
  - cbn [String.rev_app]. rewrite IH.
    change (String.rev (String a cur))
      with (String.rev_app cur (String a EmptyString)).
    rewrite rev_app_app. by rewrite app_assoc.
Qed.

Lemma rev_rev s : String.rev (String.rev s) = s.
Proof. unfold String.rev at 2. by rewrite rev_rev_app. Qed.

Lemma every_app p s t : every p (s +:+ t) = every p s && every p t.
Proof.
  induction s as [|a s IH]; [done|]. rewrite app_cons. cbn [every].
  rewrite IH. by rewrite andb_assoc.
Qed.

Lemma every_rev_app p s t :
  every p (String.rev_app s t) = every p s && every p t.
Proof.
  revert t. induction s as [|a s IH]; intros t; [done|].
  simpl. rewrite IH. simpl. destruct (p a), (every p s); done.
Qed.

Lemma every_drop p n s : every p s = true -> every p (Py.drop n s) = true.
Proof.
  revert s. induction n as [|n IH]; intros s; [done|].
  destruct s as [|a s]; [done|]. simpl.
  intros [_ ?]%andb_true_iff. by apply IH.
Qed.

Lemma is_empty_rev_app s cur :
  Py.is_empty (String.rev_app s cur) = Py.is_empty s && Py.is_empty cur.
Proof.
  revert cur. induction s as [|a s IH]; intros cur; [done|].
  simpl. rewrite IH. simpl. by rewrite andb_false_r.
Qed.

Lemma linebreak_is_space c :
  Py.is_linebreak c = true -> Py.is_space c = true.
Proof. destruct c as [[] [] [] [] [] [] [] []]; by vm_compute. Qed.

Lemma no_space_no_linebreak s : no_space s = true -> no_linebreak s = true.
Proof.
  unfold no_space, no_linebreak. induction s as [|a s IH]; [done|].
  simpl. intros [Ha Hs]%andb_true_iff. rewrite IH by done.
  destruct (Py.is_linebreak a) eqn:E; [|done].
  by rewrite (linebreak_is_space _ E) in Ha.
Qed.

(** *** [str.split] *)

Lemma split_go_token tok cur t :
  no_space tok = true ->
  Py.split_go cur (tok +:+ t) = Py.split_go (String.rev_app tok cur) t.
Proof.
  unfold no_space. revert cur. induction tok as [|a tok IH]; intros cur;
    [done|].
  rewrite app_cons. cbn [every Py.split_go String.rev_app].
  intros [Ha Hs]%andb_true_iff.
  destruct (Py.is_space a); [done|]. by apply IH.
Qed.

Lemma split_go_space cur t :
  Py.is_empty cur = false ->
  Py.split_go cur (String " " t) = String.rev cur :: Py.split_go EmptyString t.
Proof. intros H. cbn [Py.split_go]. by rewrite H. Qed.

Lemma split_go_tokens s :
  forall cur, no_space cur = true ->
  Forall (fun t => token t = true) (Py.split_go cur s).
Proof.
  assert (Hrev : forall cur, no_space cur = true ->
            Py.is_empty cur = false -> token (String.rev cur) = true).
  { intros cur Hc He. unfold token, String.rev, no_space in *.
    rewrite is_empty_rev_app, He, every_rev_app, Hc. done. }
  induction s as [|a s IH]; intros cur Hc; cbn [Py.split_go].
  - destruct (Py.is_empty cur) eqn:He; [constructor|].
    constructor; [by apply Hrev | constructor].
  - destruct (Py.is_space a) eqn:Ha.
    + destruct (Py.is_empty cur) eqn:He; [by apply IH|].
      constructor; [by apply Hrev | by apply IH].
    + apply IH. unfold no_space in *. simpl. by rewrite Ha, Hc.
Qed.

Lemma split_tokens s : Forall (fun t => token t = true) (Py.split s).
Proof. by apply split_go_tokens. Qed.

Lemma split_go_last tok :
  token tok = true -> Py.split_go EmptyString tok = [tok].
Proof.
  unfold token. intros [He Hs]%andb_true_iff.
  rewrite <- (app_nil_r tok) at 1. rewrite split_go_token by done.
  cbn [Py.split_go]. rewrite is_empty_rev_app.
  apply negb_true_iff in He. rewrite He. cbn [andb].
  by rewrite rev_rev_app.
Qed.

Lemma split_go_next tok t :
  token tok = true ->
  Py.split_go EmptyString (tok +:+ String " " t)
  = tok :: Py.split_go EmptyString t.
Proof.
  unfold token. intros [He Hs]%andb_true_iff.
  rewrite split_go_token by done. rewrite split_go_space.
  - by rewrite rev_rev_app.
  - rewrite is_empty_rev_app. apply negb_true_iff in He. by rewrite He.
Qed.

Lemma split_three a b c :
  token a = true -> token b = true -> token c = true ->
  Py.split (a +:+ " " +:+ b +:+ " " +:+ c) = [a; b; c].
Proof.
  intros Ha Hb Hc. unfold Py.split.
  change (a +:+ " " +:+ b +:+ " " +:+ c)
    with (a +:+ String " " (b +:+ String " " c)).
  rewrite !split_go_next by done. by rewrite split_go_last.
Qed.

(** *** [str.splitlines] *)

Lemma splitlines_go_line line cur t :
  no_linebreak line = true ->
  Py.splitlines_go cur (line +:+ t)
  = Py.splitlines_go (String.rev_app line cur) t.
Proof.
  unfold no_linebreak. revert cur.
  induction line as [|a line IH]; intros cur; [done|].
  rewrite app_cons. cbn [every Py.splitlines_go String.rev_app].
  intros [Ha Hs]%andb_true_iff.
  destruct (Py.is_linebreak a); [done|]. by apply IH.
Qed.

Lemma request_parts_line line rest :
  no_linebreak line = true ->
  request_parts (line +:+ CRLF +:+ rest) = Some (Py.split line).
Proof.
  intros Hl. unfold request_parts, Py.splitlines.
  rewrite splitlines_go_line by done.
  change (CRLF +:+ rest) with (String "013" (String "010" rest)).
  cbn [Py.splitlines_go].
  change (Py.is_linebreak "013") with true. cbn match.
  change (Ascii.eqb "013" "013" && Ascii.eqb "010" "010") with true.
  cbn match. by rewrite rev_rev_app.
Qed.

End Text.

(** ** The origin server *)

Section Origin.

Implicit Types (request method uri version : string) (size : Z).

Lemma web_handle_parts request method uri version :
  request_parts request = Some [method; uri; version] ->
  WebServer.handle_client request =
    if negb (String.eqb method "GET") then Sendall not_implemented
    else match Py.int (Py.lstrip_char "/" uri) with
         | Some size =>
             if (size <? 100) || (size >? 20000) then Sendall bad_request
             else Sendall (Py.encode (page size))
         | None => Sendall bad_request
         end.
Proof.
  unfold request_parts, WebServer.handle_client.
  destruct (Py.splitlines request) as [|line rest]; [done|].
  intros [= ->]. reflexivity.
Qed.

Lemma web_handle_arity request parts :
  request_parts request = Some parts -> length parts <> 3%nat ->
  WebServer.handle_client request = Raised ValueError.
Proof.
  unfold request_parts, WebServer.handle_client.
  destruct (Py.splitlines request) as [|line rest]; [done|].
  intros [= ->] Hlen.
  by destruct parts as [|a [|b [|c [|d parts]]]].
Qed.

Lemma page_content_len size :
  26 <= size -> Py.len (page_content size) = Z.to_nat size.
Proof.
  intros Hs. unfold page_content. rewrite !len_app, len_repeat.
  change (Py.len "<HTML><BODY>") with 12%nat.
  change (Py.len "</BODY></HTML>") with 14%nat. lia.
Qed.

(** On a URI the proxy has validated, stripping every leading slash and
    dropping the first character leave the same text. *)
Lemma lstrip_valid uri :
  valid_uri uri = true -> Py.lstrip_char "/" uri = Py.drop 1 uri.
Proof.
  intros (r & -> & Hr)%valid_uri_shape. cbn [Py.lstrip_char Py.drop].
  change (Ascii.eqb "/" "/") with true. cbn match.
  destruct r as [|c r]; [done|]. apply plain_inv in Hr as [Hc _].
  cbn [Py.lstrip_char]. by rewrite Hc.
Qed.

End Origin.

(** X1. A [GET] whose URI, leading slashes removed, is an integer between
    100 and 20000 is answered 200 by the origin server; the body has
    exactly that many characters and the [Content-Length] header announces
    that number. *)
Theorem origin_page_has_requested_size request uri version size :
  request_parts request = Some ["GET"; uri; version] ->
  Py.int (Py.lstrip_char "/" uri) = Some size ->
  100 <= size <= 20000 ->
  WebServer.handle_client request = Sendall (Py.encode (page size)) /\
  Py.len (page_content size) = Z.to_nat size /\
  page size =
    "HTTP/1.1 200 OK" +:+ CRLF +:+ "Content-Type: text/html" +:+ CRLF
    +:+ "Content-Length: " +:+ Py.str_nat (Z.to_nat size)
    +:+ CRLF +:+ CRLF +:+ page_content size.
Proof.
  intros Hp Hi [Hlo Hhi]. split; [|split].
  - rewrite (web_handle_parts _ _ _ _ Hp), Hi.
    change (negb (String.eqb "GET" "GET")) with false. cbn match.
    destruct (Z.ltb_spec size 100); [lia|].
    destruct (Z.gtb_spec size 20000); [lia|]. reflexivity.
  - apply page_content_len. lia.
  - unfold page. rewrite page_content_len by lia. reflexivity.
Qed.

Lemma origin_page_has_requested_size_witness :
  WebServer.handle_client (get_request "/200")
  = Sendall (Py.encode (page 200)) /\
  Py.len (page_content 200) = 200%nat.
Proof.
  destruct (origin_page_has_requested_size (get_request "/200") "/200"
              "HTTP/1.1" 200) as (H1 & H2 & _);
    [reflexivity | reflexivity | lia |].
  split; [exact H1 | exact H2].
Defined.

(** X2. The origin server's error paths: no response for the empty text;
    [ValueError] whenever the request line does not split into exactly
    three tokens, fewer than three included; 501 for a method other than
    [GET]; 400 when the URI is not an integer or is an integer below 100
    or above 20000. *)
Theorem origin_error_paths request :
  (request_parts request = None ->
     WebServer.handle_client request = NoResponse) /\
  (forall parts,
     request_parts request = Some parts -> length parts <> 3%nat ->
     WebServer.handle_client request = Raised ValueError) /\
  (forall method uri version,
     request_parts request = Some [method; uri; version] ->
     method <> "GET" ->
     WebServer.handle_client request = Sendall not_implemented) /\
  (forall uri version,
     request_parts request = Some ["GET"; uri; version] ->
     Py.int (Py.lstrip_char "/" uri) = None ->
     WebServer.handle_client request = Sendall bad_request) /\
  (forall uri version size,
     request_parts request = Some ["GET"; uri; version] ->
     Py.int (Py.lstrip_char "/" uri) = Some size ->
     size < 100 \/ 20000 < size ->
     WebServer.handle_client request = Sendall bad_request).
Proof.
  split; [|split; [|split; [|split]]].
  - unfold request_parts, WebServer.handle_client.
    by destruct (Py.splitlines request).
  - intros parts. apply web_handle_arity.
  - intros method uri version Hp Hm. rewrite (web_handle_parts _ _ _ _ Hp).
    by destruct (String.eqb_spec method "GET").
  - intros uri version Hp Hi. by rewrite (web_handle_parts _ _ _ _ Hp), Hi.
  - intros uri version size Hp Hi Hsz.
    rewrite (web_handle_parts _ _ _ _ Hp), Hi.
    change (negb (String.eqb "GET" "GET")) with false. cbn match.
    destruct (Z.ltb_spec size 100); [done|].
    destruct (Z.gtb_spec size 20000); [done | lia].
Qed.

Lemma origin_error_paths_witness :
  WebServer.handle_client EmptyString = NoResponse /\
  WebServer.handle_client "GET /100" = Raised ValueError /\
  WebServer.handle_client "PUT /100 HTTP/1.1" = Sendall not_implemented /\
  WebServer.handle_client "GET /abc HTTP/1.1" = Sendall bad_request /\
  WebServer.handle_client "GET /99 HTTP/1.1" = Sendall bad_request.
Proof.
  split; [|split; [|split; [|split]]].
  - apply (proj1 (origin_error_paths EmptyString)). reflexivity.
  - apply (proj1 (proj2 (origin_error_paths "GET /100")) ["GET"; "/100"]);
      [reflexivity | discriminate].
  - apply (proj1 (proj2 (proj2 (origin_error_paths "PUT /100 HTTP/1.1")))
             "PUT" "/100" "HTTP/1.1"); [reflexivity | discriminate].
  - apply (proj1 (proj2 (proj2 (proj2
             (origin_error_paths "GET /abc HTTP/1.1")))) "/abc" "HTTP/1.1");
      reflexivity.
  - apply (proj2 (proj2 (proj2 (proj2
             (origin_error_paths "GET /99 HTTP/1.1")))) "/99" "HTTP/1.1" 99);
      [reflexivity | reflexivity | lia].
Defined.

(** ** Forwarding *)

Section Forwarding.

Implicit Types (st : proxy) (request method uri version : string)
  (o : origin).

Lemma request_parts_tokens request parts :
  request_parts request = Some parts ->
  Forall (fun t => token t = true) parts.
Proof.
  unfold request_parts. destruct (Py.splitlines request); [done|].
  intros [= <-]. apply split_tokens.
Qed.

Lemma normalize_no_space uri :
  no_space uri = true -> no_space (normalize uri) = true.
Proof.
  unfold normalize, no_space. intros H.
  destruct (Py.startswith uri "http://"); [|done].
  unfold Py.slice_from.
  destruct (_ <? 0); by apply every_drop, every_drop.
Qed.

Lemma normalize_token uri :
  token uri = true -> Py.startswith (normalize uri) "/" = true ->
  token (normalize uri) = true.
Proof.
  unfold token. intros [_ Hs]%andb_true_iff [r Hr]%startswith_slash.
  rewrite (normalize_no_space _ Hs). by rewrite Hr.
Qed.

(** A request that passes every check of lines 53-104 reaches
    [forward]. *)
Lemma handle_client_forward st request uri version o :
  request_parts request = Some ["GET"; uri; version] ->
  valid_uri (normalize uri) = true ->
  not_modified st (normalize uri) = false ->
  handle_client st request o =
    forward st (normalize uri) version (cache_key (normalize uri)) o.
Proof.
  intros Hp Hv Hn. rewrite (handle_client_three _ _ _ _ _ _ Hp). enter_get.
  rewrite Hn. unfold valid_uri in Hv.
  apply andb_true_iff in Hv as [-> Hv]. cbn [negb].
  destruct (Py.int (Py.drop 1 (normalize uri))) as [size|]; [|done].
  apply negb_true_iff in Hv. by rewrite Hv.
Qed.

Lemma forward_serves st uri version name reply :
  forward st uri version name (Serves reply) =
    let response := take 4096 (reply (web_request_text st uri version)) in
    {| after := cache_store uri name response
                  (if is_cache_full st then evict_cache st else st);
       to_client := Sendall response;
       to_upstream := Forwarded (web_request_text st uri version) |}.
Proof. reflexivity. Qed.

Lemma web_request_text_parts st uri version :
  token uri = true -> token version = true ->
  request_parts (web_request_text st uri version)
  = Some ["GET"; uri; version].
Proof.
  intros Hu Hv. unfold web_request_text.
  set (rest := "Host: " +:+ _).
  assert (E : "GET " +:+ uri +:+ " " +:+ version +:+ CRLF +:+ rest
              = ("GET" +:+ " " +:+ uri +:+ " " +:+ version)
                +:+ CRLF +:+ rest).
  { rewrite !app_assoc. reflexivity. }
  rewrite E. rewrite request_parts_line.
  - f_equal. by apply split_three.
  - pose proof Hu as [_ Hu']%andb_true_iff.
    pose proof Hv as [_ Hv']%andb_true_iff.
    apply no_space_no_linebreak in Hu', Hv'.
    unfold no_linebreak in *. rewrite !every_app, Hu', Hv'. reflexivity.
Qed.

Lemma get_set_eq k v d : Dict.get k (Dict.set k v d) = Some v.
Proof.
  induction d as [|[k' v'] d IH]; cbn.
  - by rewrite String.eqb_refl.
  - destruct (String.eqb_spec k k') as [->|Hne]; cbn.
    + by rewrite String.eqb_refl.
    + by destruct (String.eqb_spec k k').
Qed.

Lemma mem_cons u k v d :
  Dict.mem u ((k, v) :: d) = String.eqb u k || Dict.mem u d.
Proof. unfold Dict.mem. cbn. by destruct (String.eqb u k). Qed.

Lemma not_modified_absent st u :
  Dict.mem u (cache st) = false -> not_modified st u = false.
Proof.
  unfold Dict.mem, not_modified. by destruct (Dict.get u (cache st)).
Qed.

Lemma set_length_exact k v d :
  length (Dict.set k v d)
  = if Dict.mem k d then length d else S (length d).
Proof.
  destruct (Dict.mem k d) eqn:Hm.
  - pose proof (set_present k v d Hm) as H.
    apply (f_equal length) in H. unfold Dict.keys in H.
    by rewrite !length_fmap in H.
  - rewrite set_absent by done. rewrite length_app. cbn. lia.
Qed.

(** *** On a file system that may refuse a file *)

Lemma forward_fs_serves fs st uri version name reply :
  forward_fs fs st uri version name (Serves reply) =
    let response := take 4096 (reply (web_request_text st uri version)) in
    let st1 := if is_cache_full st then evict_cache st else st in
    if fs name then
      {| after := cache_store uri name response st1;
         to_client := Sendall response;
         to_upstream := Forwarded (web_request_text st uri version) |}
    else
      {| after := st1;
         to_client := Raised OSError;
         to_upstream := Forwarded (web_request_text st uri version) |}.
Proof. reflexivity. Qed.

Lemma forward_fs_accepted fs st uri version name o :
  fs name = true ->
  forward_fs fs st uri version name o = forward st uri version name o.
Proof. intros H. destruct o; [done|]. cbn. by rewrite H. Qed.

Lemma handle_client_fs_parts fs st request o parts :
  request_parts request = Some parts ->
  handle_client_fs fs st request o =
    if (length parts <? 3)%nat then respond st 400 "Bad Request"
    else match parts with
         | [method; uri; version] =>
             handle_request_fs fs st method uri version o
         | _ => {| after := st; to_client := Raised ValueError;
                   to_upstream := NotContacted |}
         end.
Proof.
  unfold request_parts, handle_client_fs.
  destruct (Py.splitlines request); [done|]. by intros [= ->].
Qed.

Lemma handle_client_fs_forward fs st request uri version o :
  request_parts request = Some ["GET"; uri; version] ->
  valid_uri (normalize uri) = true ->
  not_modified st (normalize uri) = false ->
  handle_client_fs fs st request o =
    forward_fs fs st (normalize uri) version (cache_key (normalize uri)) o.
Proof.
  intros Hp Hv Hn. rewrite (handle_client_fs_parts _ _ _ _ _ Hp).
  cbn match. unfold handle_request_fs.
  cbn [String.eqb Ascii.eqb Bool.eqb negb].
  rewrite Hn. unfold valid_uri in Hv.
  apply andb_true_iff in Hv as [-> Hv]. cbn [negb].
  destruct (Py.int (Py.drop 1 (normalize uri))) as [size|]; [|done].
  apply negb_true_iff in Hv. by rewrite Hv.
Qed.

(** On a file system that refuses nothing the two handlers agree. *)
Lemma handle_client_fs_all fs st request o :
  (forall name, fs name = true) ->
  handle_client_fs fs st request o = handle_client st request o.
Proof.
  intros Hfs. unfold handle_client_fs, handle_client.
  destruct (Py.splitlines request) as [|line rest]; [done|].
  destruct (length (Py.split line) <? 3)%nat; [done|].
  destruct (Py.split line) as [|method [|uri [|version [|]]]]; try done.
  unfold handle_request_fs, handle_request.
  destruct (negb (String.eqb method "GET")); [done|].
  destruct (negb (Py.startswith (normalize uri) "/")); [done|].
  destruct (not_modified st (normalize uri)); [done|].
  destruct (Py.int (Py.drop 1 (normalize uri))) as [size|]; [|done].
  destruct (size >? 9999); [done|]. by apply forward_fs_accepted.
Qed.

(** What the handler answers without forwarding, and the state it leaves
    then, do not depend on the file system. *)
Lemma handle_client_fs_after fs st request o :
  (after (handle_client_fs fs st request o) = st /\
   (to_upstream (handle_client_fs fs st request o) = NotContacted \/
    to_upstream (handle_client_fs fs st request o) = ConnectFailed)) \/
  exists uri version reply,
    o = Serves reply /\
    request_parts request = Some ["GET"; uri; version] /\
    valid_uri (normalize uri) = true /\
    not_modified st (normalize uri) = false.
Proof.
  destruct (request_parts request) as [parts|] eqn:Hp.
  2:{ left. unfold request_parts in Hp. unfold handle_client_fs.
      destruct (Py.splitlines request); [split; [done | by left] | done]. }
  rewrite (handle_client_fs_parts _ _ _ _ _ Hp).
  destruct (length parts <? 3)%nat; [left; split; [done | by left]|].
  destruct parts as [|method [|uri [|version [|]]]];
    try (left; split; [done | by left]).
  unfold handle_request_fs.
  destruct (String.eqb_spec method "GET") as [->|];
    [|left; split; [done | by left]]. cbn [negb].
  destruct (Py.startswith (normalize uri) "/") eqn:Hs; cbn [negb];
    [|left; split; [done | by left]].
  destruct (not_modified st (normalize uri)) eqn:Hn;
    [left; split; [done | by left]|].
  destruct (Py.int (Py.drop 1 (normalize uri))) as [size|] eqn:Hi;
    [|left; split; [done | by left]].
  destruct (size >? 9999) eqn:Hsz; [left; split; [done | by left]|].
  destruct o as [|reply]; [left; split; [done | by right]|].
  right. exists uri, version, reply. split; [done|]. split; [done|].
  split; [|done]. unfold valid_uri. by rewrite Hs, Hi, Hsz.
Qed.

End Forwarding.

(** ** Re-caching *)

(** C3, as the code has it.  After any sequence of evictions and stores
    from an empty index: when the index is not empty, [evict_cache]
    removes its first key and no other, and that key has the smallest
    insertion time of all keys present.  The assignment of line 124 to a
    URI that is a key leaves the order of the keys as it is.  A served
    request for a validated URI that is a key keeps that key where it
    stands among the keys that remain, below the limit with all keys kept
    and at the limit with the oldest key evicted; unless the URI is itself
    the oldest key of an index at the limit: it is then evicted first and
    comes back as the newest key.  A request that is answered without
    forwarding, such as a cache hit answered 304, leaves the state as it
    is, so lookups never reorder the index. *)
Theorem fifo_eviction_and_recaching host port dir ops :
  let t := trace_ops (init host port dir) ops in
  let st := current t in
  (forall k, Dict.first (cache st) = Some k ->
     Dict.keys (cache (evict_cache st)) = tail (Dict.keys (cache st)) /\
     Dict.mem k (cache (evict_cache st)) = false /\
     forall k', k' ∈ Dict.keys (cache st) -> k' <> k ->
       (born t k < born t k')%nat) /\
  (forall uri response,
     Dict.mem uri (cache st) = true ->
     Dict.keys (cache (cache_store uri (cache_key uri) response st))
     = Dict.keys (cache st)) /\
  (forall fs request uri version reply,
     request_parts request = Some ["GET"; uri; version] ->
     valid_uri (normalize uri) = true ->
     Dict.mem (normalize uri) (cache st) = true ->
     not_modified st (normalize uri) = false ->
     fs (cache_key (normalize uri)) = true ->
     let keys' :=
       Dict.keys
         (cache (after (handle_client_fs fs st request (Serves reply)))) in
     (is_cache_full st = false -> keys' = Dict.keys (cache st)) /\
     (is_cache_full st = true ->
      Dict.first (cache st) <> Some (normalize uri) ->
      keys' = tail (Dict.keys (cache st))) /\
     (is_cache_full st = true ->
      Dict.first (cache st) = Some (normalize uri) ->
      keys' = tail (Dict.keys (cache st)) ++ [normalize uri])) /\
  (forall fs request o,
     to_upstream (handle_client_fs fs st request o) = NotContacted ->
     after (handle_client_fs fs st request o) = st).
Proof.
  intros t st.
  destruct (trace_ops_ordered host port dir ops) as (Hnd & _ & Hsort).
  fold t in Hnd, Hsort. fold st in Hnd, Hsort.
  split; [|split; [|split]].
  - intros k Hk. destruct (cache st) as [|[k0 v0] d] eqn:E; [done|].
    cbn in Hk. injection Hk as ->.
    rewrite (evict_cache_cons _ _ _ _ E). cbn [with_cache cache].
    unfold Dict.keys in *. cbn in Hnd. apply NoDup_cons in Hnd as [Hk Hd].
    split; [done|]. split; [by apply mem_false_keys|].
    intros k' Hk' Hne.
    apply list_elem_of_lookup_1 in Hk' as [j Hj].
    destruct j as [|j]; [cbn in Hj; congruence|].
    apply (Hsort O (S j)); [done | done | lia].
  - intros uri response Hm. cbn [cache_store with_cache cache].
    by apply set_present.
  - intros fs request uri version reply Hp Hv Hm Hn Hfs keys'.
    unfold keys'.
    rewrite (handle_client_fs_forward _ _ _ _ _ _ Hp Hv Hn),
      forward_fs_serves, Hfs.
    cbn [after cache_store with_cache cache].
    destruct (is_cache_full st) eqn:Hfull.
    + split; [done|].
      pose proof (is_cache_full_nonempty _ Hfull) as Hne.
      destruct (cache st) as [|[k0 v0] d] eqn:E; [done|].
      rewrite (evict_cache_cons _ _ _ _ E). cbn [with_cache cache].
      unfold Dict.keys in Hnd. cbn in Hnd.
      apply NoDup_cons in Hnd as [Hk0 _].
      rewrite mem_cons in Hm. cbn [Dict.first]. split.
      * intros _ Hfirst.
        destruct (String.eqb_spec (normalize uri) k0) as [Heq|_];
          [by rewrite Heq in Hfirst|].
        cbn [orb] in Hm. by rewrite set_present.
      * intros _ [= ->]. apply mem_false_keys in Hk0.
        rewrite set_absent by done. unfold Dict.keys.
        by rewrite fmap_app.
    + split; [intros _; by apply set_present|]. split; done.
  - intros fs request o Hup.
    destruct (handle_client_fs_after fs st request o)
      as [[? _]|(uri & version & reply & -> & Hp & Hv & Hn)]; [done|].
    rewrite (handle_client_fs_forward _ _ _ _ _ _ Hp Hv Hn),
      forward_fs_serves in Hup.
    by destruct (fs _).
Qed.

Lemma fifo_eviction_and_recaching_witness :
  let t := trace_ops fresh ten_stores in
  let st := current t in
  Dict.first (cache st) = Some "/100" /\
  Dict.keys (cache (evict_cache st))
  = ["/101"; "/102"; "/103"; "/104"; "/105"; "/106"; "/107"; "/108";
     "/109"] /\
  (born t "/100" < born t "/101")%nat /\
  Dict.keys (cache (after (handle_client_fs short_names st
                             (get_request "/105") web_server)))
  = ["/101"; "/102"; "/103"; "/104"; "/105"; "/106"; "/107"; "/108";
     "/109"] /\
  Dict.keys (cache (after (handle_client_fs short_names st
                             (get_request "/100") web_server)))
  = ["/101"; "/102"; "/103"; "/104"; "/105"; "/106"; "/107"; "/108";
     "/109"; "/100"].
Proof.
  intros t st.
  assert (Hfirst : Dict.first (cache st) = Some "/100") by reflexivity.
  destruct (fifo_eviction_and_recaching "localhost" 8080 ∅ ten_stores)
    as (H1 & _ & H3 & _).
  destruct (H1 "/100" Hfirst) as (Hkeys & _ & Hborn).
  split; [exact Hfirst|]. split; [exact Hkeys|]. split.
  { apply Hborn; [|discriminate].
    apply list_elem_of_In. right. left. reflexivity. }
  split.
  - apply (H3 short_names (get_request "/105") "/105" "HTTP/1.1"
             WebServer.serve); [reflexivity.. | reflexivity | discriminate].
  - apply (H3 short_names (get_request "/100") "/100" "HTTP/1.1"
             WebServer.serve); reflexivity.
Defined.

(** Against C3 as first stated: [/100] is the oldest key of a full index;
    the request for it is served, and afterwards [/100] is the newest key. *)
Lemma recaching_moves_oldest_key :
  Dict.mem "/100" (cache full) = true /\
  Dict.keys (cache full)
  = ["/100"; "/101"; "/102"; "/103"; "/104"; "/105"; "/106"; "/107";
     "/108"; "/109"] /\
  Dict.keys (cache (after (handle_client_fs short_names full
                             (get_request "/100") web_server)))
  = ["/101"; "/102"; "/103"; "/104"; "/105"; "/106"; "/107"; "/108";
     "/109"; "/100"].
Proof. split; [|split]; vm_compute; reflexivity. Qed.

(** X3. The text the proxy sends to the origin server for a validated
    request reads back, by the parsing both servers use, as the three
    tokens [GET], the normalized URI and the client's version: the URI and
    the version are never empty and hold no whitespace, so nothing of the
    client's request leaks into the request line or the headers. *)
Theorem forwarded_request_reads_back st request uri version reply :
  request_parts request = Some ["GET"; uri; version] ->
  valid_uri (normalize uri) = true ->
  not_modified st (normalize uri) = false ->
  let w := web_request_text st (normalize uri) version in
  to_upstream (handle_client st request (Serves reply)) = Forwarded w /\
  token (normalize uri) = true /\ token version = true /\
  request_parts w = Some ["GET"; normalize uri; version].
Proof.
  intros Hp Hv Hn w.
  pose proof (request_parts_tokens _ _ Hp) as Ht.
  apply Forall_cons in Ht as [_ Ht]. apply Forall_cons in Ht as [Hu Ht].
  apply Forall_cons in Ht as [Hver _].
  assert (Hu' : token (normalize uri) = true).
  { apply normalize_token; [done|]. unfold valid_uri in Hv.
    by apply andb_true_iff in Hv as [? _]. }
  split; [|split; [done|split; [done|]]].
  - by rewrite (handle_client_forward _ _ _ _ _ Hp Hv Hn).
  - by apply web_request_text_parts.
Qed.

Lemma forwarded_request_reads_back_witness :
  request_parts
    (web_request_text fresh "/200" "HTTP/1.0")
  = Some ["GET"; "/200"; "HTTP/1.0"].
Proof.
  apply (forwarded_request_reads_back fresh
           "GET http://localhost:8080/200 HTTP/1.0" 
           "http://localhost:8080/200" "HTTP/1.0" WebServer.serve);
    reflexivity.
Defined.

(** X4. Store and look up.  For a validated request that the origin
    server accepts: when the file system takes the file name, the index
    binds the normalized URI to [cache_key] of it and the file of that name
    holds exactly the bytes relayed to the client, the first 4096 bytes at
    most of what was waiting on the socket; when the file system refuses
    the name, [OSError] leaves the handler, the client is sent nothing and
    the state is the former one less the entry evicted if the index was at
    the limit. *)
Theorem stored_response_is_relayed_response fs st request uri version
    reply :
  request_parts request = Some ["GET"; uri; version] ->
  valid_uri (normalize uri) = true ->
  not_modified st (normalize uri) = false ->
  let u := normalize uri in
  let r := handle_client_fs fs st request (Serves reply) in
  let data := take 4096 (reply (web_request_text st u version)) in
  (fs (cache_key u) = true ->
     to_client r = Sendall data /\
     Dict.get u (cache (after r)) = Some (cache_key u) /\
     cache_dir (after r) !! cache_key u = Some data /\
     (length data <= 4096)%nat) /\
  (fs (cache_key u) = false ->
     to_client r = Raised OSError /\
     after r = (if is_cache_full st then evict_cache st else st)).
Proof.
  intros Hp Hv Hn u r data. unfold r.
  rewrite (handle_client_fs_forward _ _ _ _ _ _ Hp Hv Hn), forward_fs_serves.
  fold u. split; intros Hfs; rewrite Hfs.
  - cbn [after to_client cache_store with_cache cache cache_dir].
    split; [done|]. split; [apply get_set_eq|].
    split; [apply lookup_insert_eq|]. unfold data. rewrite length_take. lia.
  - done.
Qed.

Lemma stored_response_is_relayed_response_witness :
  (let r := handle_client_fs short_names fresh (get_request "/200")
              web_server in
   exists data,
     to_client r = Sendall data /\
     cache_dir (after r) !! "_200" = Some data) /\
  (let long := String "/" (Py.repeat_char "0" 300) in
   let r := handle_client_fs short_names full (get_request long)
              web_server in
   to_client r = Raised OSError /\ after r = evict_cache full).
Proof.
  split.
  - intros r.
    destruct (stored_response_is_relayed_response short_names fresh
                (get_request "/200") "/200" "HTTP/1.1" WebServer.serve)
      as [H _]; [reflexivity..|].
    destruct H as (H1 & _ & H3 & _); [reflexivity|].
    eexists. split; [exact H1 | exact H3].
  - intros long r.
    destruct (stored_response_is_relayed_response short_names full
                (get_request long) long "HTTP/1.1" WebServer.serve)
      as [_ H]; [vm_compute; reflexivity..|].
    apply H. vm_compute. reflexivity.
Defined.

(** ** The proxy in front of the origin server *)

Section Behind.

Implicit Types (st : proxy) (request uri version : string) (size : Z).

(** What the origin server answers to the text the proxy sends for a
    validated URI. *)
Lemma web_server_answer st uri version size :
  token uri = true -> token version = true ->
  valid_uri uri = true -> Py.int (Py.drop 1 uri) = Some size ->
  WebServer.serve (web_request_text st uri version)
  = if size <? 100 then bad_request else Py.encode (page size).
Proof.
  intros Hu Hver Hv Hi. unfold WebServer.serve.
  rewrite (web_handle_parts _ _ _ _
             (web_request_text_parts st _ _ Hu Hver)).
  change (negb (String.eqb "GET" "GET")) with false. cbn match.
  rewrite (lstrip_valid _ Hv), Hi.
  unfold valid_uri in Hv. rewrite Hi in Hv.
  apply andb_true_iff in Hv as [_ Hsz]. apply negb_true_iff in Hsz.
  rewrite Z.gtb_ltb in Hsz. apply Z.ltb_ge in Hsz.
  destruct (Z.ltb_spec size 100); [done|].
  destruct (Z.gtb_spec size 20000); [lia | done].
Qed.

(** The tokens and the validity a parsed request hands to [forward]. *)
Lemma parsed_request_valid request uri version size :
  request_parts request = Some ["GET"; uri; version] ->
  Py.startswith (normalize uri) "/" = true ->
  Py.int (Py.drop 1 (normalize uri)) = Some size ->
  size <= 9999 ->
  valid_uri (normalize uri) = true /\
  token (normalize uri) = true /\ token version = true.
Proof.
  intros Hp Hs Hi Hsz.
  pose proof (request_parts_tokens _ _ Hp) as Ht.
  apply Forall_cons in Ht as [_ Ht]. apply Forall_cons in Ht as [Hu Ht].
  apply Forall_cons in Ht as [Hver _].
  split; [|split; [by apply normalize_token | done]].
  unfold valid_uri. rewrite Hs, Hi. cbn [andb].
  destruct (Z.gtb_spec size 9999); [lia | done].
Qed.

End Behind.

(** X5. With the origin server of [webServer.py] behind the proxy, on a
    file system that takes the file name, a validated request for an
    integer [size] is answered with what the proxy has read of the origin
    server's answer for that same integer: the first 4096 bytes at most of
    the [n] bytes that had arrived, of its 400 response when [size] is
    below 100, negative sizes included, and of its page for [size]
    otherwise.  The same bytes are what the cache file of the URI holds
    afterwards, so error answers are cached like pages. *)
Theorem proxy_relays_origin_answer fs st request uri version size n :
  request_parts request = Some ["GET"; uri; version] ->
  Py.startswith (normalize uri) "/" = true ->
  Py.int (Py.drop 1 (normalize uri)) = Some size ->
  size <= 9999 ->
  not_modified st (normalize uri) = false ->
  fs (cache_key (normalize uri)) = true ->
  let r := handle_client_fs fs st request (partial_web_server n) in
  let answer := if size <? 100 then bad_request else Py.encode (page size) in
  to_client r = Sendall (take 4096 (take n answer)) /\
  cache_dir (after r) !! cache_key (normalize uri)
  = Some (take 4096 (take n answer)).
Proof.
  intros Hp Hs Hi Hsz Hn Hfs r answer.
  destruct (parsed_request_valid _ _ _ _ Hp Hs Hi Hsz) as (Hv & Hu & Hver).
  unfold r, partial_web_server.
  rewrite (handle_client_fs_forward _ _ _ _ _ _ Hp Hv Hn),
    forward_fs_serves, Hfs.
  cbn [after to_client cache_store with_cache cache_dir].
  rewrite (web_server_answer _ _ _ _ Hu Hver Hv Hi).
  split; [done | apply lookup_insert_eq].
Qed.

Lemma proxy_relays_origin_answer_witness :
  let r := handle_client_fs short_names fresh (get_request "/-5")
             (partial_web_server 28) in
  to_client r = Sendall bad_request /\
  cache_dir (after r) !! "_-5" = Some bad_request.
Proof.
  intros r.
  apply (proxy_relays_origin_answer short_names fresh (get_request "/-5")
           "/-5" "HTTP/1.1" (-5) 28);
    [reflexivity | reflexivity | reflexivity | lia | reflexivity
    | reflexivity].
Defined.

(** ** Counting entries *)

(** X6. How a served request for a validated URI changes the number of
    entries, in a reachable state.  When the file system takes the file
    name: below the limit, a URI that is not a key adds one entry and a
    URI that is a key adds none; at the limit, a URI that is not a key, or
    that is the oldest key, leaves the number as it is, and a URI that is
    a key but not the oldest one makes the index one entry smaller,
    because the oldest entry is evicted although no room was needed.  When
    the file system refuses the name, nothing is added: the number stays
    below the limit and drops by one at the limit. *)
Theorem entries_after_fetch fs st request uri version reply :
  reachable st ->
  request_parts request = Some ["GET"; uri; version] ->
  valid_uri (normalize uri) = true ->
  not_modified st (normalize uri) = false ->
  let u := normalize uri in
  let n := length (cache st) in
  let n' :=
    length (cache (after (handle_client_fs fs st request (Serves reply)))) in
  (fs (cache_key u) = true ->
     (is_cache_full st = false ->
        n' = if Dict.mem u (cache st) then n else S n) /\
     (is_cache_full st = true -> Dict.mem u (cache st) = false -> n' = n) /\
     (is_cache_full st = true -> Dict.first (cache st) = Some u -> n' = n) /\
     (is_cache_full st = true -> Dict.mem u (cache st) = true ->
        Dict.first (cache st) <> Some u -> S n' = n)) /\
  (fs (cache_key u) = false ->
     (is_cache_full st = false -> n' = n) /\
     (is_cache_full st = true -> S n' = n)).
Proof.
  intros Hst Hp Hv Hn u n n'. unfold n', n.
  rewrite (handle_client_fs_forward _ _ _ _ _ _ Hp Hv Hn), forward_fs_serves.
  fold u. destruct (reachable_inv _ Hst) as [Hnd _].
  split; intros Hfs; rewrite Hfs.
  - cbn [after cache_store with_cache cache]. rewrite set_length_exact.
    destruct (is_cache_full st) eqn:Hfull.
    + split; [done|].
      pose proof (is_cache_full_nonempty _ Hfull) as Hne.
      destruct (cache st) as [|[k0 v0] d] eqn:E; [done|].
      rewrite (evict_cache_cons _ _ _ _ E). cbn [with_cache cache].
      unfold Dict.keys in Hnd. cbn in Hnd.
      apply NoDup_cons in Hnd as [Hk0 _].
      rewrite mem_cons. cbn [Dict.first length].
      split; [|split].
      * intros _ [_ ->]%orb_false_iff. done.
      * intros _ [= ->]. apply mem_false_keys in Hk0. by rewrite Hk0.
      * intros _ Hm Hfirst. destruct (String.eqb_spec u k0) as [->|_];
          [done|]. cbn [orb] in Hm. by rewrite Hm.
    + split; [done|]. split; [done|]. split; done.
  - cbn [after]. destruct (is_cache_full st) eqn:Hfull.
    + split; [done|]. intros _.
      by apply evict_cache_length, is_cache_full_nonempty.
    + split; done.
Qed.

Lemma entries_after_fetch_witness :
  S (length (cache (after (handle_client_fs short_names full
                             (get_request "/105") web_server))))
  = length (cache full) /\
  (let long := String "/" (Py.repeat_char "0" 300) in
   S (length (cache (after (handle_client_fs short_names full
                              (get_request long) web_server))))
   = length (cache full)).
Proof.
  assert (Hr : reachable full) by (apply run_reachable, reach_init).
  split.
  - destruct (entries_after_fetch short_names full (get_request "/105")
                "/105" "HTTP/1.1" WebServer.serve Hr) as [H _];
      [reflexivity | reflexivity | vm_compute; reflexivity |].
    destruct H as (_ & _ & _ & H); [reflexivity|].
    apply H; [vm_compute; reflexivity | vm_compute; reflexivity |].
    vm_compute. discriminate.
  - intros long.
    destruct (entries_after_fetch short_names full (get_request long)
                long "HTTP/1.1" WebServer.serve Hr) as [_ H];
      [vm_compute; reflexivity..|].
    destruct H as [_ H]; [vm_compute; reflexivity|].
    apply H. vm_compute. reflexivity.
Defined.

(** ** Outcomes *)



(** ** Files the proxy leaves alone *)

Section Frame.

Implicit Types (st : proxy) (name uri : string).

Lemma valid_key_underscore uri :
  valid_uri uri = true -> Py.startswith (cache_key uri) "_" = true.
Proof.
  intros (r & E & Hr)%valid_uri_shape.
  by rewrite (cache_key_valid _ _ E Hr).
Qed.

Lemma exec_op_frame st op name :
  cache_inv st -> op_valid op -> Py.startswith name "_" = false ->
  cache_dir (exec_op st op) !! name = cache_dir st !! name.
Proof.
  intros [_ Hall] Hop Hname. destruct op as [|uri response]; cbn [exec_op].
  - destruct (cache st) as [|[k v] d] eqn:E.
    { by rewrite evict_cache_nil. }
    rewrite (evict_cache_cons _ _ _ _ E). cbn [with_cache cache_dir].
    destruct (Hall k v) as (Hv & -> & _); [by apply elem_of_cons; left|].
    apply lookup_delete_ne. intros <-.
    by rewrite (valid_key_underscore _ Hv) in Hname.
  - cbn [cache_store with_cache cache_dir].
    apply lookup_insert_ne. intros <-.
    by rewrite (valid_key_underscore _ Hop) in Hname.
Qed.

Lemma exec_ops_frame ops st name :
  reachable st -> Forall op_valid ops -> Py.startswith name "_" = false ->
  cache_dir (exec_ops st ops) !! name = cache_dir st !! name.
Proof.
  unfold exec_ops. intros Hst Hops Hname. revert st Hst.
  induction Hops as [|op ops Hop _ IH]; intros st Hst; [done|].
  cbn [foldl]. rewrite IH by (by apply reach_op).
  apply exec_op_frame; [by apply reachable_inv | done | done].
Qed.

Lemma handle_client_frame st request o name :
  reachable st -> Py.startswith name "_" = false ->
  cache_dir (after (handle_client st request o)) !! name
  = cache_dir st !! name.
Proof.
  intros Hst Hname.
  destruct (handle_client_after st request o)
    as [->|(uri & version & Hv & _ & ->)]; [done|].
  destruct (forward_ops st uri version o) as (ops & _ & Hops & ->).
  apply exec_ops_frame; [done | | done]. apply Forall_forall.
  intros op [->|[r ->]]%Hops; [done | exact Hv].
Qed.

Lemma run_frame reqs st name :
  reachable st -> Py.startswith name "_" = false ->
  cache_dir (run st reqs) !! name = cache_dir st !! name.
Proof.
  revert st. induction reqs as [|[request o] reqs IH]; intros st Hst Hname;
    [done|].
  cbn [run]. rewrite IH by (by try apply handle_client_reachable).
  by apply handle_client_frame.
Qed.

End Frame.

(** X8. Whatever requests are handled, a file of the cache directory whose
    name does not begin with an underscore is never written and never
    removed: every file the proxy stores or evicts is named [_] followed
    by the slash-free rest of a validated URI. *)
Theorem unrelated_files_untouched host port dir reqs name :
  Py.startswith name "_" = false ->
  cache_dir (run (init host port dir) reqs) !! name = dir !! name.
Proof. intros Hname. by rewrite run_frame by (by try apply reach_init). Qed.

Lemma unrelated_files_untouched_witness :
  cache_dir (run (init "localhost" 8080 {["notes.txt" := []]}) ten_requests)
    !! "notes.txt"
  = Some [].
Proof.
  rewrite (unrelated_files_untouched "localhost" 8080 {["notes.txt" := []]}
             ten_requests "notes.txt"); reflexivity.
Defined.

(** ** More on normalization *)

Section Normalization.

Implicit Types (s host uri : string) (c : ascii).

Lemma startswith_char_sym c a s :
  Py.startswith (String a s) (String c EmptyString) = Ascii.eqb a c.
Proof.
  cbn [Py.startswith]. rewrite andb_true_r. apply Ascii.eqb_sym.
Qed.

Lemma drop_nil n : Py.drop n EmptyString = EmptyString.
Proof. by destruct n. Qed.

Lemma find_absent_drop c s :
  forall i, 0 <= i -> Py.find_from i c s = -1 ->
  forall n, Py.startswith (Py.drop n s) (String c EmptyString) = false.
Proof.
  induction s as [|a s IH]; intros i Hi H n.
  - by rewrite drop_nil.
  - cbn [Py.find_from] in H. destruct (Ascii.eqb a c) eqn:Hac; [lia|].
    destruct n as [|n]; cbn [Py.drop].
    + by rewrite startswith_char_sym.
    + apply (IH (i + 1)); [lia | done].
Qed.

Lemma find_found_drop c s :
  forall i, 0 <= i -> Py.find_from i c s <> -1 ->
  i <= Py.find_from i c s /\
  Py.startswith (Py.drop (Z.to_nat (Py.find_from i c s - i)) s)
    (String c EmptyString) = true.
Proof.
  induction s as [|a s IH]; intros i Hi H; [done|].
  cbn [Py.find_from] in *. destruct (Ascii.eqb a c) eqn:Hac.
  - split; [lia|]. rewrite Z.sub_diag.
    change (Py.drop (Z.to_nat 0) (String a s)) with (String a s).
    by rewrite startswith_char_sym.
  - destruct (IH (i + 1) ltac:(lia) H) as [Hle Hst]. split; [lia|].
    replace (Z.to_nat (Py.find_from (i + 1) c s - i))
      with (S (Z.to_nat (Py.find_from (i + 1) c s - (i + 1)))) by lia.
    done.
Qed.

Lemma len_drop n s : Py.len (Py.drop n s) = (Py.len s - n)%nat.
Proof.
  unfold Py.len. revert s. induction n as [|n IH]; intros s.
  - cbn [Py.drop]. lia.
  - destruct s as [|a s]; [done|]. cbn [Py.drop String.length]. apply IH.
Qed.

(** The part of an absolute URI that follows the scheme, sliced at its
    first slash: the result starts with a slash, or has at most one
    character and no slash. *)
Lemma slice_at_slash s :
  let r := Py.slice_from s (Py.find s "/") in
  (Py.find s "/" <> -1 /\ Py.startswith r "/" = true) \/
  (Py.find s "/" = -1 /\ Py.startswith r "/" = false /\
   (Py.len r <= 1)%nat).
Proof.
  intros r. unfold r, Py.find, Py.slice_from.
  destruct (Z.eq_dec (Py.find_from 0 "/" s) (-1)) as [E|E].
  - right. split; [done|]. rewrite E. cbn [Z.ltb Z.compare].
    split; [by eapply find_absent_drop|]. rewrite len_drop. lia.
  - left. split; [done|].
    destruct (find_found_drop "/" s 0 ltac:(lia) E) as [Hle Hst].
    destruct (Z.ltb_spec (Py.find_from 0 "/" s) 0); [lia|].
    by rewrite Z.sub_0_r in Hst.
Qed.

End Normalization.

(** X9. An absolute URI with nothing after the scheme but a slash-free
    host, such as [http://localhost:8080], is answered 400 in every
    state: [find] returns -1, the slice keeps the last character of the
    host at most, and that is not a slash. *)
Theorem absolute_uri_without_path_rejected st request host version o :
  request_parts request = Some ["GET"; "http://" +:+ host; version] ->
  Py.find host "/" = -1 ->
  handle_client st request o = respond st 400 "Bad Request".
Proof.
  intros Hp Hfind. rewrite (handle_client_three _ _ _ _ _ _ Hp). enter_get.
  assert (Hs : Py.startswith (normalize ("http://" +:+ host)) "/" = false).
  { unfold normalize.
    change (Py.startswith ("http://" +:+ host) "http://") with true.
    cbn match.
    change (Py.drop (Py.len "http://") ("http://" +:+ host)) with host.
    destruct (slice_at_slash host) as [[? _]|(_ & ? & _)]; done. }
  by rewrite Hs.
Qed.

Lemma absolute_uri_without_path_rejected_witness :
  handle_client full "GET http://localhost:8080 HTTP/1.1" web_server
  = respond full 400 "Bad Request".
Proof.
  apply (absolute_uri_without_path_rejected full _ "localhost:8080"
           "HTTP/1.1"); reflexivity.
Defined.

(** X10. Normalizing is idempotent: the normalized URI never starts with
    [http://], so normalizing it again changes nothing. *)
Theorem normalize_idempotent uri :
  Py.startswith (normalize uri) "http://" = false /\
  normalize (normalize uri) = normalize uri.
Proof.
  assert (H : Py.startswith (normalize uri) "http://" = false).
  { unfold normalize. destruct (Py.startswith uri "http://") eqn:E; [|done].
    destruct (slice_at_slash (Py.drop (Py.len "http://") uri))
      as [[_ Hs]|(_ & _ & Hl)].
    - apply startswith_slash in Hs as [r ->]. reflexivity.
    - destruct (Py.slice_from _ _) as [|a [|b r]]; [done | | ].
      + cbn [Py.startswith]. apply andb_false_r.
      + unfold Py.len in Hl. cbn in Hl. lia. }
  split; [done|]. unfold normalize at 1. by rewrite H.
Qed.

(** ** Fetching into a full cache *)

(** X11. In a reachable state whose index is at the limit, a served
    request for a validated URI that is not a key removes the oldest key
    and its file.  When the file system takes the new file name the new
    URI is put last: the keys afterwards are the former keys without the
    first, followed by the new URI.  When it refuses the name the keys
    afterwards are the former keys without the first, and nothing else:
    an entry is lost and none gained. *)
Theorem full_cache_fetch_rotates fs st request uri version reply k0 :
  reachable st ->
  is_cache_full st = true ->
  request_parts request = Some ["GET"; uri; version] ->
  valid_uri (normalize uri) = true ->
  Dict.mem (normalize uri) (cache st) = false ->
  Dict.first (cache st) = Some k0 ->
  let r := handle_client_fs fs st request (Serves reply) in
  Dict.keys (cache (after r))
  = tail (Dict.keys (cache st))
    ++ (if fs (cache_key (normalize uri)) then [normalize uri] else []) /\
  Dict.mem k0 (cache (after r)) = false /\
  cache_dir (after r) !! cache_key k0 = None.
Proof.
  intros Hst Hfull Hp Hv Hm Hfirst r. unfold r.
  rewrite (handle_client_fs_forward _ _ _ _ _ _ Hp Hv
             (not_modified_absent _ _ Hm)), forward_fs_serves.
  rewrite Hfull. destruct (reachable_inv _ Hst) as [Hnd Hall].
  destruct (cache st) as [|[k v0] d] eqn:E; [done|].
  cbn in Hfirst. injection Hfirst as ->.
  rewrite (evict_cache_cons _ _ _ _ E).
  rewrite mem_cons in Hm. apply orb_false_iff in Hm as [Hne Hmd].
  apply String.eqb_neq in Hne.
  unfold Dict.keys in *. cbn in Hnd. apply NoDup_cons in Hnd as [Hk0 _].
  destruct (Hall k0 v0) as (Hv0 & -> & _); [by apply elem_of_cons; left|].
  destruct (fs (cache_key (normalize uri)));
    cbn [after cache_store with_cache cache cache_dir].
  - rewrite set_absent by done. rewrite fmap_app.
    cbn [fmap list_fmap fst tail].
    split; [done|]. split.
    + apply mem_false_keys. unfold Dict.keys. rewrite fmap_app.
      cbn [fmap list_fmap fst].
      intros [?| ->%list_elem_of_singleton]%elem_of_app; done.
    + rewrite lookup_insert_ne; [apply lookup_delete_eq|].
      intros Heq. by apply cache_key_inj in Heq.
  - cbn [fmap list_fmap fst tail]. rewrite List.app_nil_r.
    split; [done|]. split; [by apply mem_false_keys|].
    apply lookup_delete_eq.
Qed.

Lemma full_cache_fetch_rotates_witness :
  Dict.keys (cache (after (handle_client_fs short_names full
                             (get_request "/200") web_server)))
  = ["/101"; "/102"; "/103"; "/104"; "/105"; "/106"; "/107"; "/108";
     "/109"; "/200"].
Proof.
  assert (Hr : reachable full) by (apply run_reachable, reach_init).
  apply (full_cache_fetch_rotates short_names full (get_request "/200")
           "/200" "HTTP/1.1" WebServer.serve "/100" Hr);
    vm_compute; reflexivity.
Defined.

(** ** File names *)

Section FileNames.

Lemma find_from_cache_key uri :
  forall i, Py.find_from i "/" (cache_key uri) = -1.
Proof.
  unfold cache_key. induction uri as [|c s IH]; intros i; [done|].
  cbn [Py.replace Py.find_from].
  destruct (Ascii.eqb c "/") eqn:E.
  - change (Ascii.eqb "_" "/") with false. cbn match. apply IH.
  - rewrite E. apply IH.
Qed.

Lemma encode_length s : length (Py.encode s) = Py.len s.
Proof.
  unfold Py.encode, String.list_byte_of_string, Py.len.
  rewrite List.length_map. induction s as [|a s IH]; [done|].
  cbn. by rewrite IH.
Qed.

Lemma page_len size :
  26 <= size ->
  Py.len (page size)
  = (62 + Py.len (Py.str_nat (Z.to_nat size)) + Z.to_nat size)%nat.
Proof.
  intros Hs. unfold page. rewrite page_content_len by done.
  rewrite !len_app, page_content_len by done.
  change (Py.len CRLF) with 2%nat.
  change (Py.len "HTTP/1.1 200 OK") with 15%nat.
  change (Py.len "Content-Type: text/html") with 23%nat.
  change (Py.len "Content-Length: ") with 16%nat. lia.
Qed.

End FileNames.

(** X12. The file name [cache_key] gives never contains a slash, so the
    file is always directly in the cache directory; on URIs that pass the
    proxy's validation [cache_key] is injective, so two keys of the index
    never share a file.  Without validation it is not: [/a/b] and [/a_b]
    get the same name. *)
Theorem cache_key_is_file_safe :
  (forall uri, Py.find (cache_key uri) "/" = -1) /\
  (forall k1 k2,
     valid_uri k1 = true -> valid_uri k2 = true ->
     cache_key k1 = cache_key k2 -> k1 = k2) /\
  cache_key "/a/b" = cache_key "/a_b".
Proof.
  split; [|split].
  - intros uri. apply find_from_cache_key.
  - apply cache_key_inj.
  - reflexivity.
Qed.

Lemma cache_key_is_file_safe_witness :
  Py.find (cache_key "/1_0") "/" = -1 /\ "/1_0" = String "/" "1_0".
Proof.
  split.
  - apply (proj1 cache_key_is_file_safe "/1_0").
  - apply (proj1 (proj2 cache_key_is_file_safe) "/1_0" (String "/" "1_0"));
      reflexivity.
Defined.

(** X13. After any sequence of requests from an empty index, the keys of
    the index are pairwise distinct, each passes the proxy's validation,
    each is already in normalized form, and each is bound to its own
    [cache_key]. *)
Theorem cached_keys_are_validated host port dir reqs :
  let st := run (init host port dir) reqs in
  NoDup (Dict.keys (cache st)) /\
  forall k, k ∈ Dict.keys (cache st) ->
    valid_uri k = true /\ normalize k = k /\
    Dict.get k (cache st) = Some (cache_key k).
Proof.
  intros st.
  assert (Hr : reachable st) by (apply run_reachable, reach_init).
  destruct (reachable_inv _ Hr) as [Hnd Hall]. split; [done|].
  intros k Hk%mem_keys. unfold Dict.mem in Hk.
  destruct (Dict.get k (cache st)) as [v|] eqn:Hg; [|done].
  destruct (Hall k v (get_elem_of _ _ _ Hg)) as (Hv & -> & _).
  split; [done|]. split; [|done]. apply normalize_relative.
  unfold valid_uri in Hv. by apply andb_true_iff in Hv as [? _].
Qed.

Lemma cached_keys_are_validated_witness :
  valid_uri "/105" = true /\ normalize "/105" = "/105" /\
  Dict.get "/105" (cache full) = Some (cache_key "/105").
Proof.
  apply (proj2 (cached_keys_are_validated "localhost" 8080 ∅ ten_requests)
           "/105").
  apply list_elem_of_In. vm_compute. tauto.
Defined.

(** ** Truncation *)

(** X14. The proxy reads the origin server's answer once, 4096 bytes at
    most.  For a validated size of at least 100, on a file system that
    takes the file name, the relayed and stored bytes number the smallest
    of 4096, of the [n] bytes that had arrived, and of the length of the
    page, which is 62 plus the digits of the size plus the size.  So from
    size 4096 on the client and the cache file always get less than the
    page, and exactly 4096 bytes of it once that many had arrived. *)
Theorem long_pages_are_truncated fs st request uri version size n :
  request_parts request = Some ["GET"; uri; version] ->
  Py.startswith (normalize uri) "/" = true ->
  Py.int (Py.drop 1 (normalize uri)) = Some size ->
  100 <= size <= 9999 ->
  not_modified st (normalize uri) = false ->
  fs (cache_key (normalize uri)) = true ->
  let r := handle_client_fs fs st request (partial_web_server n) in
  let total :=
    (62 + Py.len (Py.str_nat (Z.to_nat size)) + Z.to_nat size)%nat in
  exists data,
    to_client r = Sendall data /\
    cache_dir (after r) !! cache_key (normalize uri) = Some data /\
    length (Py.encode (page size)) = total /\
    length data = Nat.min 4096 (Nat.min n total) /\
    (4096 <= size ->
       (length data < total)%nat /\
       ((4096 <= n)%nat -> length data = 4096%nat)).
Proof.
  intros Hp Hs Hi [Hlo Hhi] Hn Hfs r total.
  destruct (parsed_request_valid _ _ _ _ Hp Hs Hi Hhi) as (Hv & Hu & Hver).
  exists (take 4096 (take n (Py.encode (page size)))).
  assert (Hlen : length (Py.encode (page size)) = total).
  { rewrite encode_length, page_len by lia. done. }
  unfold r, partial_web_server.
  rewrite (handle_client_fs_forward _ _ _ _ _ _ Hp Hv Hn),
    forward_fs_serves, Hfs.
  cbn [after to_client cache_store with_cache cache_dir].
  rewrite (web_server_answer _ _ _ _ Hu Hver Hv Hi).
  destruct (Z.ltb_spec size 100) as [?|_]; [lia|].
  split; [done|]. split; [apply lookup_insert_eq|]. split; [exact Hlen|].
  rewrite !length_take, Hlen. split; [done|]. intros Hbig.
  unfold total. lia.
Qed.

Lemma long_pages_are_truncated_witness :
  exists data,
    to_client (handle_client_fs short_names fresh (get_request "/5000")
                 (partial_web_server 4096))
    = Sendall data /\
    length data = 4096%nat.
Proof.
  destruct (long_pages_are_truncated short_names fresh
              (get_request "/5000") "/5000" "HTTP/1.1" 5000 4096)
    as (data & H1 & _ & _ & _ & H5);
    [reflexivity | reflexivity | reflexivity | lia | reflexivity
    | reflexivity |].
  exists data. split; [exact H1|].
  destruct H5 as [_ H5]; [lia|]. apply H5. lia.
Defined.

(** ** What is stored is never read *)

(** X15. No answer depends on what the cache directory holds.  Two
    states that differ in the directory only give the same bytes to the
    client, the same text to the origin server and the same index
    afterwards: a stored response is never read back, not even on a
    hit. *)
Theorem cache_files_never_read st dir request o :
  let st' := with_cache st (cache st) dir in
  to_client (handle_client st' request o)
  = to_client (handle_client st request o) /\
  to_upstream (handle_client st' request o)
  = to_upstream (handle_client st request o) /\
  cache (after (handle_client st' request o))
  = cache (after (handle_client st request o)).
Proof.
  intros st'.
  assert (Hev : cache (evict_cache st') = cache (evict_cache st)).
  { unfold evict_cache, st'. cbn [with_cache cache].
    destruct (Dict.first (cache st)); [|done].
    by destruct (Dict.get _ (cache st)). }
  unfold handle_client.
  destruct (Py.splitlines request) as [|line rest]; [done|].
  destruct (length (Py.split line) <? 3)%nat; [done|].
  destruct (Py.split line) as [|method [|uri [|version [|]]]]; try done.
  unfold handle_request.
  destruct (negb (String.eqb method "GET")); [done|].
  destruct (negb (Py.startswith (normalize uri) "/")); [done|].
  change (not_modified st' (normalize uri))
    with (not_modified st (normalize uri)).
  destruct (not_modified st (normalize uri)); [done|].
  destruct (Py.int (Py.drop 1 (normalize uri))) as [size|]; [|done].
  destruct (size >? 9999); [done|].
  destruct o as [|reply]; [done|]. rewrite !forward_serves.
  change (web_request_text st' (normalize uri) version)
    with (web_request_text st (normalize uri) version).
  change (is_cache_full st') with (is_cache_full st).
  cbn [after to_client to_upstream cache_store with_cache cache].
  split; [done|]. split; [done|].
  destruct (is_cache_full st); [by rewrite Hev | done].
Qed.

(** ** The index after a run *)

Section Latest.

Implicit Types (st : proxy) (u : string) (fs : string -> bool).

Lemma run_fs_app fs st reqs1 reqs2 :
  run_fs fs st (reqs1 ++ reqs2) = run_fs fs (run_fs fs st reqs1) reqs2.
Proof.
  revert st. induction reqs1 as [|[request o] reqs1 IH]; intros st; [done|].
  cbn [app run_fs]. apply IH.
Qed.

(** A served request for a validated URI that is not a key, on a file
    system that takes its file name: the URI goes last, after an eviction
    when the index was at the limit. *)
Lemma fetch_keys fs st q u :
  served_for q u -> fs (cache_key u) = true ->
  Dict.mem u (cache st) = false ->
  Dict.keys (cache (run_fs fs st [q]))
  = (if is_cache_full st then tail (Dict.keys (cache st))
     else Dict.keys (cache st)) ++ [u].
Proof.
  destruct q as [request o].
  intros (uri & version & reply & Ho & Hp & <- & Hv) Hfs Hm.
  cbn in Ho, Hp. subst o. cbn [run_fs].
  rewrite (handle_client_fs_forward _ _ _ _ _ _ Hp Hv
             (not_modified_absent _ _ Hm)), forward_fs_serves, Hfs.
  cbn [after cache_store with_cache cache].
  destruct (is_cache_full st) eqn:Hfull.
  - pose proof (is_cache_full_nonempty _ Hfull) as Hne.
    destruct (cache st) as [|[k0 v0] d] eqn:E; [done|].
    rewrite (evict_cache_cons _ _ _ _ E). cbn [with_cache cache].
    rewrite mem_cons in Hm. apply orb_false_iff in Hm as [_ Hmd].
    rewrite set_absent by done. unfold Dict.keys. by rewrite fmap_app.
  - rewrite set_absent by done. unfold Dict.keys. by rewrite fmap_app.
Qed.

Lemma elem_of_drop_list (x : string) n (l : list string) :
  x ∈ drop n l -> x ∈ l.
Proof.
  intros [i Hi]%list_elem_of_lookup_1. rewrite lookup_drop in Hi.
  by eapply list_elem_of_lookup_2.
Qed.

End Latest.

(** X16. From an empty index, on a file system that takes the file name
    of each of them, after requests for pairwise distinct validated URIs
    that the origin server all answers, the keys of the index are the last
    [CACHE_SIZE_LIMIT] of these URIs, all of them when there are fewer, in
    the order of the requests. *)
Theorem index_holds_latest_uris fs host port dir reqs us :
  Forall2 served_for reqs us ->
  Forall (fun u => fs (cache_key u) = true) us ->
  NoDup us ->
  Dict.keys (cache (run_fs fs (init host port dir) reqs))
  = drop (length us - CACHE_SIZE_LIMIT) us.
Proof.
  revert us.
  induction reqs as [|q reqs IH] using rev_ind; intros us HF Hfs Hnd.
  { apply Forall2_nil_inv_l in HF as ->. done. }
  apply Forall2_app_inv_l in HF as (us1 & us2 & HF1 & HF2 & ->).
  apply Forall2_cons_inv_l in HF2 as (u & us3 & Hq & HF3 & ->).
  apply Forall2_nil_inv_l in HF3 as ->.
  apply NoDup_app in Hnd as (Hnd1 & Hfresh & _).
  apply Forall_app in Hfs as [Hfs1 Hfsu].
  apply Forall_cons in Hfsu as [Hfsu _].
  specialize (IH us1 HF1 Hfs1 Hnd1).
  set (st := run_fs fs (init host port dir) reqs) in *.
  assert (Hm : Dict.mem u (cache st) = false).
  { apply mem_false_keys. rewrite IH. intros Hin%elem_of_drop_list.
    apply (Hfresh u Hin). by apply list_elem_of_singleton. }
  assert (Hlen : length (cache st) = (length us1 - (length us1 - 10))%nat).
  { rewrite <- (length_drop us1). unfold CACHE_SIZE_LIMIT in IH.
    rewrite <- IH. unfold Dict.keys. by rewrite length_fmap. }
  rewrite run_fs_app. fold st. rewrite (fetch_keys _ _ _ _ Hq Hfsu Hm), IH.
  rewrite length_app. cbn [length]. unfold is_cache_full, CACHE_SIZE_LIMIT.
  destruct (Nat.leb_spec 10 (length (cache st))) as [Hfull|Hfree].
  - change (tail (drop (length us1 - 10) us1))
      with (drop 1 (drop (length us1 - 10) us1)).
    rewrite drop_drop, drop_app_le by lia. do 2 f_equal. lia.
  - rewrite drop_app_le by lia. do 2 f_equal. lia.
Qed.

Lemma index_holds_latest_uris_witness :
  Dict.keys (cache (run_fs short_names fresh
                      (ten_requests ++ [(get_request "/200", web_server)])))
  = ["/101"; "/102"; "/103"; "/104"; "/105"; "/106"; "/107"; "/108";
     "/109"; "/200"].
Proof.
  apply (index_holds_latest_uris short_names "localhost" 8080 ∅
           (ten_requests ++ [(get_request "/200", web_server)])
           ["/100"; "/101"; "/102"; "/103"; "/104"; "/105"; "/106";
            "/107"; "/108"; "/109"; "/200"]).
  - repeat (constructor;
            [eexists _, "HTTP/1.1", WebServer.serve;
             repeat split; reflexivity|]).
    constructor.
  - repeat (constructor; [reflexivity|]). constructor.
  - apply (bool_decide_unpack _). vm_compute. exact I.
Defined.
